(** * aibot: the conversation loop of [aibot.py]

    A shallow embedding of the interactive client: the two input readers
    ([get_message], [get_multiline_message]), the renderer
    ([handle_response]), the retry loop ([process_message]) and the session
    loop ([flow_conversation]).

    Effects are explicit.  A computation is a function from a [world] (what
    is left on standard input, the calls made to the remote service so far,
    the terminal width, and the trace of everything printed, logged or
    slept) to a result, which is a value or a raised Python exception,
    together with the new world.

    Text is modelled on its ASCII fragment: [str.lower], [str.upper] and
    [str.strip] act on ASCII letters and ASCII white space, other characters
    are left alone.  None of the literals the program compares against
    ("exit", "newchat", "multiline", "yes", "END") is the case image of a
    non-ASCII character, so the comparisons are not affected. *)

From Stdlib Require Import String Ascii List Bool Arith ZArith Lia DecimalString.
Import ListNotations.

Set Warnings "-register-all".

Local Open Scope string_scope.
Local Open Scope list_scope.

(** ** Python strings *)

Module PyStr.

(** [str.isspace] on one ASCII character: TAB, LF, VT, FF, CR, the four
    separators FS, GS, RS, US, and the space. *)
Definition is_space (c : ascii) : bool :=
  let n := nat_of_ascii c in
  (((9 <=? n) && (n <=? 13)) || ((28 <=? n) && (n <=? 32)))%nat.

Definition lower_char (c : ascii) : ascii :=
  let n := nat_of_ascii c in
  if ((65 <=? n) && (n <=? 90))%nat then ascii_of_nat (n + 32) else c.

Definition upper_char (c : ascii) : ascii :=
  let n := nat_of_ascii c in
  if ((97 <=? n) && (n <=? 122))%nat then ascii_of_nat (n - 32) else c.

Fixpoint map_chars (f : ascii -> ascii) (s : string) : string :=
  match s with
  | EmptyString => EmptyString
  | String c r => String (f c) (map_chars f r)
  end.

(** [s.lower()] and [s.upper()]. *)
Definition lower : string -> string := map_chars lower_char.
Definition upper : string -> string := map_chars upper_char.

(** [s.lstrip()], [s.rstrip()], [s.strip()]. *)
Fixpoint lstrip (s : string) : string :=
  match s with
  | EmptyString => EmptyString
  | String c r => if is_space c then lstrip r else s
  end.

Fixpoint rstrip (s : string) : string :=
  match s with
  | EmptyString => EmptyString
  | String c r =>
      match rstrip r with
      | EmptyString => if is_space c then EmptyString else String c EmptyString
      | r' => String c r'
      end
  end.

Definition strip (s : string) : string := lstrip (rstrip s).

(** [sep.join(parts)]. *)
Fixpoint join (sep : string) (parts : list string) : string :=
  match parts with
  | [] => EmptyString
  | [p] => p
  | p :: rest => p ++ sep ++ join sep rest
  end.

Definition newline : string := String (ascii_of_nat 10) EmptyString.

(** The line boundaries of [str.splitlines] in the ASCII range, CR apart:
    LF, VT, FF, FS, GS, RS. *)
Definition is_linebreak (c : ascii) : bool :=
  let n := nat_of_ascii c in
  (((10 <=? n) && (n <=? 12)) || ((28 <=? n) && (n <=? 30)))%nat.

Definition is_cr (c : ascii) : bool := (nat_of_ascii c =? 13)%nat.
Definition is_lf (c : ascii) : bool := (nat_of_ascii c =? 10)%nat.

(** [s.splitlines()]: [cur] is the line being read.  CR LF is one
    boundary; a boundary at the very end opens no further line. *)
Fixpoint splitlines_from (cur s : string) : list string :=
  match s with
  | EmptyString => match cur with EmptyString => [] | _ => [cur] end
  | String c r =>
      if is_cr c then
        match r with
        | String d r' =>
            if is_lf d then cur :: splitlines_from EmptyString r'
            else cur :: splitlines_from EmptyString r
        | EmptyString => [cur]
        end
      else if is_linebreak c then cur :: splitlines_from EmptyString r
      else splitlines_from (cur ++ String c EmptyString) r
  end.

Definition splitlines (s : string) : list string :=
  splitlines_from EmptyString s.

(** [str(n)] for an [int]. *)
Definition of_int (n : Z) : string := NilZero.string_of_int (Z.to_int n).

(** Truth value of a string: [if s:] holds when [s] is not empty. *)
Definition truthy (s : string) : bool :=
  match s with EmptyString => false | _ => true end.

End PyStr.

(** ** Python exceptions *)

(** A class by its chain of bases up to [BaseException] (single
    inheritance, which is all the built-in hierarchy used here has). *)
Inductive pyclass : Type :=
| BaseException : pyclass
| Subclass (base : pyclass) (name : string) : pyclass.

Definition Exception : pyclass := Subclass BaseException "Exception".
Definition KeyboardInterrupt : pyclass := Subclass BaseException "KeyboardInterrupt".
Definition OSError : pyclass := Subclass Exception "OSError".
Definition ConnectionError : pyclass := Subclass OSError "ConnectionError".
Definition TimeoutError : pyclass := Subclass OSError "TimeoutError".
Definition EOFError : pyclass := Subclass Exception "EOFError".
Definition AttributeError : pyclass := Subclass Exception "AttributeError".
Definition ValueError : pyclass := Subclass Exception "ValueError".

Fixpoint pyclass_eqb (a b : pyclass) : bool :=
  match a, b with
  | BaseException, BaseException => true
  | Subclass pa na, Subclass pb nb => String.eqb na nb && pyclass_eqb pa pb
  | _, _ => false
  end.

(** [issubclass(c, target)]. *)
Fixpoint issubclass (c target : pyclass) : bool :=
  pyclass_eqb c target ||
  match c with
  | BaseException => false
  | Subclass base _ => issubclass base target
  end.

(** A raised exception: its class and [str(e)]. *)
Record exn : Type := mk_exn { exn_class : pyclass; exn_text : string }.

Definition isinstance (e : exn) (c : pyclass) : bool := issubclass (exn_class e) c.

(** ** Python values, as far as a reply of the service is inspected *)

Inductive pyval : Type :=
| VNone : pyval
| VInt (n : Z) : pyval
| VStr (s : string) : pyval
| VList (items : list pyval) : pyval
| VDict (items : list (string * pyval)) : pyval.

(** [d[k]] on the items of a dict, [None] when [k not in d]. *)
Fixpoint dict_get (items : list (string * pyval)) (k : string) : option pyval :=
  match items with
  | [] => None
  | (k', v) :: rest => if String.eqb k' k then Some v else dict_get rest k
  end.

(** ** The world the program runs in *)

(** One call of [api.prompt(message, new_conversation=...)]. *)
Record api_call : Type :=
  mk_call { call_message : string; call_new_conversation : bool }.

Inductive api_result : Type :=
| Returns (response : pyval)
| Raises (e : exn).

(** The remote service behind [MetaAI.prompt]: what a call does, given the
    calls made before it (oldest first). *)
Definition MetaAI : Type := list api_call -> api_call -> api_result.

(** What the terminal delivers to one [input()]: a line (without its line
    end) or an interrupt typed at the prompt.  An empty list is end of
    file. *)
Inductive tty : Type :=
| Line (s : string)
| CtrlC.

Inductive level : Type := WARNING | ERROR.

Inductive event : Type :=
| Cleared                                 (* os.system("cls"/"clear") *)
| Figlet (text font style : string)       (* console.print(figlet_format(..)) *)
| Printed (text style : string)           (* console.print(text, style=..) *)
| PrintedPlain (text : string)            (* console.print(text) *)
| PrintedLine                             (* print() *)
| Slept (seconds : Z)                     (* time.sleep(seconds) *)
| Logged (lvl : level) (text : string).   (* logging.warning / logging.error *)

Record world : Type := mk_world {
  stdin : list tty;          (* what is still to be read *)
  calls : list api_call;     (* calls made to the service, oldest first *)
  width : nat;               (* console.width *)
  out : list event           (* everything shown, slept or logged, in order *)
}.

Definition set_stdin (w : world) (i : list tty) : world :=
  mk_world i (calls w) (width w) (out w).
Definition add_call (w : world) (c : api_call) : world :=
  mk_world (stdin w) (calls w ++ [c]) (width w) (out w).
Definition emit (w : world) (evs : list event) : world :=
  mk_world (stdin w) (calls w) (width w) (out w ++ evs).

(** ** Computations: state and exceptions *)

Inductive res (A : Type) : Type :=
| Val (a : A)
| Raise (e : exn).
Arguments Val {A} a.
Arguments Raise {A} e.

Definition M (A : Type) : Type := world -> res A * world.

Definition ret {A} (a : A) : M A := fun w => (Val a, w).
Definition raise {A} (e : exn) : M A := fun w => (Raise e, w).

Definition bind {A B} (m : M A) (k : A -> M B) : M B :=
  fun w =>
    match m w with
    | (Val a, w') => k a w'
    | (Raise e, w') => (Raise e, w')
    end.

(** [try: body except ... as e: handler e]; a handler that matches no
    clause re-raises. *)
Definition try_except {A} (body : M A) (handler : exn -> M A) : M A :=
  fun w =>
    match body w with
    | (Val a, w') => (Val a, w')
    | (Raise e, w') => handler e w'
    end.

(** [try: body finally: final]: [final] runs whatever [body] did; what
    [body] returned or raised stands, unless [final] raises itself. *)
Definition try_finally {A} (body : M A) (final : M unit) : M A :=
  fun w =>
    match body w with
    | (r, w') =>
        match final w' with
        | (Val _, w'') => (r, w'')
        | (Raise e, w'') => (Raise e, w'')
        end
    end.

Declare Scope py_scope.
Delimit Scope py_scope with py.
Notation "x <- m ;; k" := (bind m (fun x => k))
  (at level 61, m at next level, right associativity) : py_scope.
Notation "m ;; k" := (bind m (fun _ => k))
  (at level 61, right associativity) : py_scope.
Local Open Scope py_scope.

(** ** Primitive effects *)

Definition effect (ev : event) : M unit := fun w => (Val tt, emit w [ev]).

(** [input()]: end of file raises [EOFError], an interrupt raises
    [KeyboardInterrupt]. *)
Definition input : M string :=
  fun w =>
    match stdin w with
    | [] => (Raise (mk_exn EOFError "EOF when reading a line"), w)
    | Line s :: rest => (Val s, set_stdin w rest)
    | CtrlC :: rest => (Raise (mk_exn KeyboardInterrupt EmptyString), set_stdin w rest)
    end.

Definition console_print (text style : string) : M unit :=
  effect (Printed text style).

Definition print_line : M unit := effect PrintedLine.

Definition logging_warning (text : string) : M unit := effect (Logged WARNING text).
Definition logging_error (text : string) : M unit := effect (Logged ERROR text).

(** [time.sleep(seconds)] refuses a negative length. *)
Definition time_sleep (seconds : Z) : M unit :=
  if (seconds <? 0)%Z
  then raise (mk_exn ValueError "sleep length must be non-negative")
  else effect (Slept seconds).

Definition console_width : M nat := fun w => (Val (width w), w).

(** [api.prompt(message, new_conversation=...)]: the call is recorded, then
    the service answers or raises. *)
Definition prompt (api : MetaAI) (message : string) (new_conversation : bool)
  : M pyval :=
  fun w =>
    let c := mk_call message new_conversation in
    match api (calls w) c with
    | Returns v => (Val v, add_call w c)
    | Raises e => (Raise e, add_call w c)
    end.

(** ** The program *)

Section Aibot.

Import PyStr.

(** [textwrap.TextWrapper(width=.., replace_whitespace=False,
    drop_whitespace=False).fill], a library function the program only
    calls: [fill width paragraph]. *)
Variable fill : nat -> string -> string.

Definition nl : string := newline.

Definition clear_screen : M unit := effect Cleared.

Definition instructions : string :=
  "You can interact with the AI by typing your messages." ++ nl ++
  "Here are some commands you can use:" ++ nl ++
  "  - Type 'newchat' to start a new conversation." ++ nl ++
  "  - Type 'exit' to end the conversation." ++ nl ++
  "  - Type 'multiline' to switch to multiline input mode. Send your multiline input with 'END'." ++ nl ++
  "Feel free to ask anything or start a new conversation." ++ nl.

Definition display_instructions : M unit :=
  effect (Figlet "Sensei Hax" "slant" "bold blue") ;;
  console_print instructions "bold cyan".

(** [get_message]: one line, stripped. *)
Definition get_message (prompt_text : string) : M string :=
  console_print prompt_text "bold green" ;;
  line <- input ;;
  ret (strip line).

Definition is_end (line : string) : bool :=
  String.eqb (upper (strip line)) "END".

(** The [while True] of [get_multiline_message], by recursion on what is
    left to read: every turn takes one item from standard input. *)
Fixpoint read_block (lines : list string) (pending : list tty)
  : res (list string) * list tty :=
  match pending with
  | [] => (Raise (mk_exn EOFError "EOF when reading a line"), [])
  | CtrlC :: rest => (Raise (mk_exn KeyboardInterrupt EmptyString), rest)
  | Line line :: rest =>
      if is_end line then (Val lines, rest)
      else read_block (lines ++ [line]) rest
  end.

Definition multiline_loop (lines : list string) : M (list string) :=
  fun w => let (r, rest) := read_block lines (stdin w) in (r, set_stdin w rest).

Definition multiline_prompt : string :=
  "Your message (send with 'END' on a new line): ".

Definition get_multiline_message (prompt_text : string) : M string :=
  console_print prompt_text "bold green" ;;
  lines <- multiline_loop [] ;;
  ret (strip (join nl lines)).

Definition format_text_block (text : pyval) : M string :=
  terminal_width <- console_width ;;
  match text with
  | VStr s => ret (join nl (map (fill terminal_width) (splitlines s)))
  | _ => raise (mk_exn AttributeError "object has no attribute 'splitlines'")
  end.

Definition handle_response (response : pyval) : M unit :=
  match response with
  | VDict items =>
      match dict_get items "message" with
      | Some message =>
          formatted_message <- format_text_block message ;;
          print_line ;;
          console_print formatted_message "bold dim" ;;
          print_line
      | None => console_print "Unexpected response format." "bold red"
      end
  | _ => console_print "Unexpected response format." "bold red"
  end.

Definition load_instructions : string :=
  "Let's play a game. These are the rules: " ++
  "Your name is Hax. " ++
  "You are a sensei to the unguided grasshoppers of the cyber world. " ++
  "Your duty is to welcome young pupils and show them the way. " ++
  "You can only use written text and must provide all lesson material locally. " ++
  "You are the dojo, the sensei, the vast wealth of knowledge. You are the way! " ++
  "IMPORTANT: Do not recommend anything outside your dojo. Use subtle emojis. " ++
  "Format your responses for cli. ".

Definition start_failed_text (e : exn) : string :=
  "Unable to start a new conversation. Exception details: " ++ exn_text e.

Definition start_new_conversation (api : MetaAI) : M unit :=
  try_except
    (clear_screen ;;
     display_instructions ;;
     console_print ("Starting a new conversation..." ++ nl) "bold cyan" ;;
     response <- prompt api load_instructions true ;;
     handle_response response)
    (fun e =>
       if isinstance e Exception
       then logging_error (start_failed_text e)
       else raise e).

(** How [process_message] left its loop.  The Python function returns
    [None]; the tag records the exit taken: the [break] after
    [handle_response], the [break] of the [except Exception] clause, or
    the [else] of the [for]. *)
Inductive outcome : Type :=
| Completed (response : pyval)
| Aborted (e : exn)
| Exhausted.

Inductive step : Type :=
| Leave (o : outcome)      (* break *)
| Next.                    (* go on with the next attempt *)

Definition retry_text (e : exn) (attempt retries : Z) : string :=
  "Error occurred: " ++ exn_text e ++ ". Retrying... Attempt " ++
  of_int attempt ++ "/" ++ of_int retries ++ ".".

Definition unexpected_text (e : exn) : string :=
  "Unexpected error occurred: " ++ exn_text e.

Definition exhausted_text (retries : Z) : string :=
  "Unable to obtain a valid response after " ++ of_int retries ++ " attempts.".

(** [range(lo, hi)]. *)
Definition py_range (lo hi : Z) : list Z :=
  map (fun i => (lo + Z.of_nat i)%Z) (seq 0 (Z.to_nat (hi - lo))).

(** The body of the [for]: one attempt. *)
Definition attempt_once (api : MetaAI) (message : string)
           (retries delay attempt : Z) : M step :=
  try_except
    (response <- prompt api message false ;;
     handle_response response ;;
     ret (Leave (Completed response)))
    (fun e =>
       if isinstance e ConnectionError || isinstance e TimeoutError then
         logging_warning (retry_text e attempt retries) ;;
         time_sleep delay ;;
         ret Next
       else if isinstance e Exception then
         logging_error (unexpected_text e) ;;
         ret (Leave (Aborted e))
       else raise e).

(** The [for ... else] over the attempts that are left. *)
Fixpoint attempts_loop (api : MetaAI) (message : string)
         (retries delay : Z) (attempts : list Z) : M outcome :=
  match attempts with
  | [] =>
      logging_error (exhausted_text retries) ;;
      ret Exhausted
  | attempt :: rest =>
      s <- attempt_once api message retries delay attempt ;;
      match s with
      | Leave o => ret o
      | Next => attempts_loop api message retries delay rest
      end
  end.

Definition process_message (api : MetaAI) (message : string)
           (retries delay : Z) : M outcome :=
  attempts_loop api message retries delay (py_range 1 (retries + 1)).

(** The two local variables of [flow_conversation]. *)
Record session : Type := mk_session {
  conversation_started : bool;
  multiline_mode : bool
}.

Definition set_started (s : session) (b : bool) : session :=
  mk_session b (multiline_mode s).
Definition set_multiline (s : session) (b : bool) : session :=
  mk_session (conversation_started s) b.

(** How one turn of the [while True] ends. *)
Inductive ctl : Type :=
| Continue (s : session)   (* next turn, with these locals *)
| Break.                   (* the loop is left *)

(** [if not conversation_started: ...] *)
Definition ensure_started (api : MetaAI) (s : session) : M session :=
  if negb (conversation_started s) then
    clear_screen ;;
    display_instructions ;;
    start_new_conversation api ;;
    ret (set_started s true)
  else ret s.

(** [if not multiline_mode: ... else: ...]; [None] is the [continue]
    taken after the switch to multiline mode. *)
Definition read_message (s : session) : M (option string * session) :=
  if negb (multiline_mode s) then
    message <- get_message "Your message: " ;;
    if String.eqb (lower message) "multiline" then
      console_print
        "Switched to multiline mode. Type your message and end with 'END'."
        "bold cyan" ;;
      ret (None, set_multiline s true)
    else ret (Some message, s)
  else
    message <- get_multiline_message multiline_prompt ;;
    ret (Some message, set_multiline s false).

(** [if message.lower() == "exit": ... elif ... else: ...] *)
Definition dispatch (api : MetaAI) (retries delay : Z)
           (message : string) (s : session) : M ctl :=
  if String.eqb (lower message) "exit" then
    answer <- get_message "Are you sure you want to exit? (yes/no): " ;;
    if String.eqb (lower answer) "yes" then
      clear_screen ;;
      console_print ("Ending the conversation..." ++ nl) "bold yellow" ;;
      ret Break
    else ret (Continue s)
  else if String.eqb (lower message) "newchat" then
    ret (Continue (set_started s false))
  else if truthy message then
    process_message api message retries delay ;;
    ret (Continue s)
  else
    console_print "Invalid input. Please type a valid message or command."
                  "bold red" ;;
    ret (Continue s).

(** The body of the [try] inside the loop. *)
Definition loop_body (api : MetaAI) (retries delay : Z) (s : session)
  : M ctl :=
  s1 <- ensure_started api s ;;
  r <- read_message s1 ;;
  match r with
  | (None, s2) => ret (Continue s2)
  | (Some message, s2) => dispatch api retries delay message s2
  end.

Definition interrupt_notice : string :=
  nl ++ "[bold red]Keyboard interrupt detected. Exiting the conversation...[/bold red]".

(** One turn of the loop, with its [except KeyboardInterrupt]. *)
Definition flow_iteration (api : MetaAI) (retries delay : Z) (s : session)
  : M ctl :=
  try_except
    (loop_body api retries delay s)
    (fun e =>
       if isinstance e KeyboardInterrupt then
         effect (PrintedPlain interrupt_notice) ;;
         ret Break
       else raise e).

(** [flow_conversation]: the loop, for at most [fuel] turns.  [Some tt]
    when the loop was left by a [break], [None] when the turns ran out. *)
Fixpoint flow_loop (fuel : nat) (api : MetaAI) (retries delay : Z)
         (s : session) : M (option unit) :=
  match fuel with
  | O => ret None
  | S fuel' =>
      c <- flow_iteration api retries delay s ;;
      match c with
      | Break => ret (Some tt)
      | Continue s' => flow_loop fuel' api retries delay s'
      end
  end.

Definition flow_conversation (fuel : nat) (api : MetaAI) (retries delay : Z)
  : M (option unit) :=
  flow_loop fuel api retries delay (mk_session false false).

Definition shutdown_notice : string :=
  nl ++ "[bold red]Keyboard interrupt detected. Shutting down...[/bold red]".

Definition init_failed_text (e : exn) : string :=
  "Failed to initialize MetaAI. Exception details: " ++ exn_text e.

(** [MetaAI()]: the constructor hands out the service or raises; [made]
    says which. *)
Definition new_MetaAI (made : res MetaAI) : M MetaAI := fun w => (made, w).

(** [main]; [flow_conversation(ai)] runs with its defaults, three
    attempts and two seconds. *)
Definition main (fuel : nat) (made : res MetaAI) : M (option unit) :=
  clear_screen ;;
  display_instructions ;;
  console_print ("Initializing MetaAI..." ++ nl) "bold blue" ;;
  try_finally
    (try_except
       (ai <- new_MetaAI made ;;
        flow_conversation fuel ai 3 2)
       (fun e =>
          if isinstance e KeyboardInterrupt then
            effect (PrintedPlain shutdown_notice) ;;
            ret (Some tt)
          else if isinstance e Exception then
            logging_error (init_failed_text e) ;;
            ret (Some tt)
          else raise e))
    (console_print "Exiting the application. Goodbye!" "bold green").

End Aibot.

(** * Vocabulary of the properties *)

(** A world with further calls recorded. *)
Definition add_calls (w : world) (cs : list api_call) : world :=
  mk_world (stdin w) (calls w ++ cs) (width w) (out w).

(** The world once the input up to [rest] was read and [shown] was
    printed. *)
Definition after_reading (w : world) (rest : list tty) (shown : list event)
  : world :=
  emit (set_stdin w rest) shown.

Definition not_end (line : string) : Prop := is_end line = false.

(** The call every attempt of [process_message] makes:
    [api.prompt(message=message)]. *)
Definition send (message : string) : api_call := mk_call message false.

(** The call that opens a conversation. *)
Definition greeting : api_call := mk_call load_instructions true.

Definition unexpected_format_notice : event :=
  Printed "Unexpected response format." "bold red".
Definition message_prompt : event := Printed "Your message: " "bold green".
Definition exit_prompt : event :=
  Printed "Are you sure you want to exit? (yes/no): " "bold green".
Definition ending_notice : event :=
  Printed ("Ending the conversation..." ++ nl) "bold yellow".
Definition invalid_notice : event :=
  Printed "Invalid input. Please type a valid message or command." "bold red".
Definition block_prompt : event := Printed multiline_prompt "bold green".

Definition banner : list event :=
  [Figlet "Sensei Hax" "slant" "bold blue"; Printed instructions "bold cyan"].

Definition attribute_error : exn :=
  mk_exn AttributeError "object has no attribute 'splitlines'".

(** [True] when the reply is a dict that has a "message" key. *)
Definition has_message (response : pyval) : bool :=
  match response with
  | VDict items =>
      match dict_get items "message" with Some _ => true | None => false end
  | _ => false
  end.

(** What [handle_response] shows for a reply on a terminal of the given
    width, [None] when it raises. *)
Definition rendering (fill : nat -> string -> string) (response : pyval)
           (terminal_width : nat) : option (list event) :=
  match response with
  | VDict items =>
      match dict_get items "message" with
      | Some (VStr s) =>
          Some [PrintedLine;
                Printed (PyStr.join nl
                           (map (fill terminal_width) (PyStr.splitlines s)))
                        "bold dim";
                PrintedLine]
      | Some _ => None
      | None => Some [unexpected_format_notice]
      end
  | _ => Some [unexpected_format_notice]
  end.

(** A failure the [except (ConnectionError, TimeoutError)] clause takes. *)
Definition transient (e : exn) : bool :=
  isinstance e ConnectionError || isinstance e TimeoutError.

(** A failure the [except Exception] clause takes. *)
Definition fatal (e : exn) : bool :=
  negb (transient e) && isinstance e Exception.

(** The warnings and sleeps of a run of transient failures, the first of
    them at attempt number [attempt]. *)
Fixpoint retry_events (retries delay : Z) (errs : list exn) (attempt : Z)
  : list event :=
  match errs with
  | [] => []
  | e :: rest =>
      Logged WARNING (retry_text e attempt retries) :: Slept delay ::
      retry_events retries delay rest (attempt + 1)
  end.

(** From world [w] on, the calls sending [message] fail with [errs], one
    after the other, each failure transient. *)
Definition fails_with (api : MetaAI) (message : string) (errs : list exn)
           (w : world) : Prop :=
  forall i e,
    nth_error errs i = Some e ->
    api (calls w ++ repeat (send message) i) (send message) = Raises e /\
    transient e = true.



(** The same reading for the empty block: it is sent to the service. *)
Definition empty_block_sent (fill : nat -> string -> string) : Prop :=
  forall (api : MetaAI) (retries delay : Z) (s : session)
         (lines : list string) (sentinel : string) (rest : list tty)
         (w : world),
    (1 <= retries)%Z ->
    conversation_started s = true -> multiline_mode s = true ->
    Forall not_end lines -> is_end sentinel = true ->
    stdin w = map Line lines ++ Line sentinel :: rest ->
    PyStr.strip (PyStr.join nl lines) = EmptyString ->
    exists more,
      calls (snd (loop_body fill api retries delay s w)) =
      calls w ++ send EmptyString :: more.

(** The notice of the loop's [except KeyboardInterrupt]. *)
Definition interrupted : event := PrintedPlain interrupt_notice.

(** The last thing [main] prints. *)
Definition goodbye : event :=
  Printed "Exiting the application. Goodbye!" "bold green".

(** What [main] shows before it builds the service. *)
Definition main_screen : list event :=
  Cleared :: banner ++ [Printed ("Initializing MetaAI..." ++ nl) "bold blue"].

(** A string of white space only (the empty string included). *)
Fixpoint blank (s : string) : bool :=
  match s with
  | EmptyString => true
  | String c r => PyStr.is_space c && blank r
  end.



(** In a session the loop can reach, multiline mode is only on once the
    conversation was started. *)
Definition coherent (s : session) : Prop :=
  multiline_mode s = true -> conversation_started s = true.

(** [w'] is a later state of [w]: input was only consumed, calls and
    trace were only added to, and the terminal kept its width. *)
Definition later (w w' : world) : Prop :=
  (exists read, stdin w = read ++ stdin w') /\
  (exists more, calls w' = calls w ++ more) /\
  width w' = width w /\
  (exists shown, out w' = out w ++ shown).

(** A computation that only moves the world forward. *)
Definition advances {A} (m : M A) : Prop :=
  forall w, later w (snd (m w)).

(** ** Concrete terminals and services *)

(** A wrapper that leaves every paragraph as it is. *)
Definition no_wrap : nat -> string -> string := fun _ paragraph => paragraph.

(** A fresh terminal, 80 columns wide, on which [lines] will be typed. *)
Definition console (lines : list tty) : world := mk_world lines [] 80 [].

(** A service that is never reachable. *)
Definition unreachable : MetaAI :=
  fun _ _ => Raises (mk_exn ConnectionError "connection refused").

(** A service that rejects every call with an error that is no
    connectivity failure. *)
Definition rejecting : MetaAI :=
  fun _ _ => Raises (mk_exn ValueError "bad request").

(** A service that times out on its first call and answers afterwards. *)
Definition slow_start : MetaAI :=
  fun history _ =>
    match history with
    | [] => Raises (mk_exn TimeoutError "timed out")
    | _ => Returns (VDict [("message", VStr "hello")])
    end.

(** A service that answers every call with the message it was sent. *)
Definition echo : MetaAI :=
  fun _ call => Returns (VDict [("message", VStr (call_message call))]).

(** A service whose replies carry no "message". *)
Definition mute : MetaAI :=
  fun _ _ => Returns (VDict [("sources", VList [])]).

(** A service that times out on its first call and rejects the calls
    after it. *)
Definition failing_late : MetaAI :=
  fun history _ =>
    match history with
    | [] => Raises (mk_exn TimeoutError "timed out")
    | _ => Raises (mk_exn ValueError "bad request")
    end.


(** A service during whose calls the user interrupts. *)
Definition interrupting : MetaAI :=
  fun _ _ => Raises (mk_exn KeyboardInterrupt EmptyString).

(** A service whose calls end the interpreter. *)
Definition quitting : MetaAI :=
  fun _ _ => Raises (mk_exn (Subclass BaseException "SystemExit") "bye").

(** The session after the greeting, in single-line and in multiline
    mode. *)
Definition single_line : session := mk_session true false.
Definition multiline : session := mk_session true true.

(** * Properties *)

(** ** Worlds and strings *)

Lemma world_ext (w1 w2 : world) :
  stdin w1 = stdin w2 -> calls w1 = calls w2 -> width w1 = width w2 ->
  out w1 = out w2 -> w1 = w2.
Proof.
  destruct w1, w2; simpl; intros; subst; reflexivity.
Qed.

Lemma emit_emit (w : world) (a b : list event) :
  emit (emit w a) b = emit w (a ++ b).
Proof.
  apply world_ext; simpl; auto using app_assoc.
Qed.

Lemma emit_nil (w : world) : emit w [] = w.
Proof.
  apply world_ext; simpl; auto using app_nil_r.
Qed.

Lemma length_map_chars (f : ascii -> ascii) (s : string) :
  String.length (PyStr.map_chars f s) = String.length s.
Proof.
  induction s as [|c r IH]; simpl; congruence.
Qed.

Lemma eqb_length_false (a b : string) :
  String.length a <> String.length b -> String.eqb a b = false.
Proof.
  intros H. apply String.eqb_neq. intros ->. apply H. reflexivity.
Qed.

Lemma truthy_length (s : string) :
  String.length s <> 0 -> PyStr.truthy s = true.
Proof.
  destruct s; simpl; congruence.
Qed.

(** A line that reads as the sentinel has three characters once stripped. *)
Lemma is_end_length (line : string) :
  is_end line = true -> String.length (PyStr.strip line) = 3.
Proof.
  unfold is_end. intros H. apply String.eqb_eq in H.
  rewrite <- (length_map_chars PyStr.upper_char). unfold PyStr.upper in H.
  rewrite H. reflexivity.
Qed.

Lemma py_range_nil (lo hi : Z) : (hi <= lo)%Z -> py_range lo hi = [].
Proof.
  intros H. unfold py_range.
  replace (Z.to_nat (hi - lo)) with 0 by lia. reflexivity.
Qed.

Lemma py_range_cons (lo hi : Z) :
  (lo < hi)%Z -> py_range lo hi = lo :: py_range (lo + 1) hi.
Proof.
  intros H. unfold py_range.
  replace (Z.to_nat (hi - lo)) with (S (Z.to_nat (hi - (lo + 1)))) by lia.
  simpl. f_equal; [lia|].
  rewrite <- seq_shift, map_map.
  apply map_ext. intros i. lia.
Qed.

Lemma py_range_length (lo hi : Z) :
  List.length (py_range lo hi) = Z.to_nat (hi - lo).
Proof.
  unfold py_range. now rewrite length_map, length_seq.
Qed.

(** ** The renderer and the retry loop *)

Section Delivery.

Variable fill : nat -> string -> string.

Lemma handle_response_spec (response : pyval) (w : world) :
  handle_response fill response w =
  match rendering fill response (width w) with
  | Some evs => (Val tt, emit w evs)
  | None => (Raise attribute_error, w)
  end.
Proof.
  destruct response as [| n | s | l | items]; try reflexivity.
  simpl. destruct (dict_get items "message") as [[| n | s | l | d]|];
    try reflexivity.
  unfold bind, format_text_block, console_width, bind, ret, print_line,
    console_print, effect. simpl.
  rewrite !emit_emit. reflexivity.
Qed.

Lemma rendering_without_message (response : pyval) (n : nat) :
  has_message response = false ->
  rendering fill response n = Some [unexpected_format_notice].
Proof.
  destruct response as [| k | s | l | items]; simpl; try reflexivity.
  destruct (dict_get items "message"); [discriminate | reflexivity].
Qed.

Variable api : MetaAI.
Variable message : string.
Variables retries delay : Z.

Lemma attempt_transient (attempt : Z) (e : exn) (w : world) :
  (0 <= delay)%Z ->
  api (calls w) (send message) = Raises e -> transient e = true ->
  attempt_once fill api message retries delay attempt w =
  (Val Next,
   emit (add_calls w [(send message)])
        [Logged WARNING (retry_text e attempt retries); Slept delay]).
Proof.
  intros Hd Ha Ht.
  unfold attempt_once, try_except, bind, prompt. change (mk_call message false) with (send message). rewrite Ha.
  unfold transient in Ht. rewrite Ht.
  unfold logging_warning, time_sleep, effect.
  replace (delay <? 0)%Z with false by (symmetry; apply Z.ltb_ge; lia).
  unfold ret. rewrite emit_emit. reflexivity.
Qed.

Lemma attempt_fatal (attempt : Z) (e : exn) (w : world) :
  api (calls w) (send message) = Raises e -> fatal e = true ->
  attempt_once fill api message retries delay attempt w =
  (Val (Leave (Aborted e)),
   emit (add_calls w [(send message)]) [Logged ERROR (unexpected_text e)]).
Proof.
  intros Ha Hf. apply andb_prop in Hf as [Ht He].
  apply negb_true_iff in Ht.
  unfold attempt_once, try_except, bind, prompt. change (mk_call message false) with (send message). rewrite Ha.
  unfold transient in Ht. rewrite Ht, He. reflexivity.
Qed.

Lemma attempt_returns (attempt : Z) (r : pyval) (evs : list event)
      (w : world) :
  api (calls w) (send message) = Returns r -> rendering fill r (width w) = Some evs ->
  attempt_once fill api message retries delay attempt w =
  (Val (Leave (Completed r)), emit (add_calls w [(send message)]) evs).
Proof.
  intros Ha Hr.
  unfold attempt_once, try_except, bind, prompt. change (mk_call message false) with (send message). rewrite Ha.
  rewrite handle_response_spec. simpl. rewrite Hr. reflexivity.
Qed.

Lemma fails_with_tail (e : exn) (errs : list exn) (w : world) (evs : list event) :
  fails_with api message (e :: errs) w ->
  fails_with api message errs (emit (add_calls w [(send message)]) evs).
Proof.
  intros H i e' Hi. simpl. rewrite <- app_assoc. apply (H (S i) e' Hi).
Qed.

Lemma add_calls_step (w : world) (n : nat) (a b : list event) :
  emit (add_calls (emit (add_calls w [(send message)]) a) (repeat (send message) n)) b =
  emit (add_calls w (repeat (send message) (S n))) (a ++ b).
Proof.
  apply world_ext; simpl; auto using app_assoc.
  now rewrite <- app_assoc.
Qed.

(** After a run of transient failures the loop stands at the next
    attempt, with one call, one warning and one sleep per failure. *)
Lemma attempts_loop_failures (errs : list exn) :
  forall (first last : Z) (w : world),
    (0 <= delay)%Z ->
    (first + Z.of_nat (List.length errs) <= last)%Z ->
    fails_with api message errs w ->
    attempts_loop fill api message retries delay (py_range first last) w =
    attempts_loop fill api message retries delay
      (py_range (first + Z.of_nat (List.length errs)) last)
      (emit (add_calls w (repeat (send message) (List.length errs)))
            (retry_events retries delay errs first)).
Proof.
  induction errs as [|e errs IH]; intros first last w Hd Hlen Hf.
  - simpl. rewrite Z.add_0_r. f_equal.
    apply world_ext; simpl; auto using app_nil_r.
  - simpl List.length in *.
    rewrite py_range_cons by lia.
    destruct (Hf 0 e eq_refl) as [Ha Ht]. simpl in Ha. rewrite app_nil_r in Ha.
    simpl attempts_loop. unfold bind at 1.
    rewrite (attempt_transient first e w Hd Ha Ht).
    rewrite IH; [| assumption | lia | eapply fails_with_tail; eassumption].
    replace (first + 1 + Z.of_nat (List.length errs))%Z
      with (first + Z.of_nat (S (List.length errs)))%Z by lia.
    f_equal. apply add_calls_step.
Qed.

(** When a reply arrives after a run of transient failures and the
    renderer accepts it, the loop is left at once. *)
Lemma process_message_returns_after (errs : list exn) (r : pyval)
      (evs : list event) (w : world) :
  (0 <= delay)%Z ->
  (Z.of_nat (List.length errs) < retries)%Z ->
  fails_with api message errs w ->
  api (calls w ++ repeat (send message) (List.length errs)) (send message) = Returns r ->
  rendering fill r (width w) = Some evs ->
  process_message fill api message retries delay w =
  (Val (Completed r),
   emit (add_calls w (repeat (send message) (S (List.length errs))))
        (retry_events retries delay errs 1 ++ evs)).
Proof.
  intros Hd Hlen Hf Ha Hr. unfold process_message.
  rewrite (attempts_loop_failures errs 1 (retries + 1) w Hd) by (lia || assumption).
  rewrite py_range_cons by lia.
  simpl attempts_loop. unfold bind at 1.
  rewrite (attempt_returns _ r evs) by assumption.
  unfold ret. f_equal. apply world_ext; simpl; auto using app_assoc.
  rewrite <- app_assoc. f_equal. symmetry. apply repeat_cons.
Qed.

(** When every attempt fails with a transient failure, the [else] of the
    [for] is reached after [retries] calls. *)
Lemma process_message_exhausts (errs : list exn) (w : world) :
  (0 <= delay)%Z ->
  List.length errs = Z.to_nat retries ->
  fails_with api message errs w ->
  process_message fill api message retries delay w =
  (Val Exhausted,
   emit (add_calls w (repeat (send message) (List.length errs)))
        (retry_events retries delay errs 1 ++ [Logged ERROR (exhausted_text retries)])).
Proof.
  intros Hd Hlen Hf. unfold process_message.
  destruct (Z.ltb_spec retries 0) as [Hneg | Hpos].
  - replace (Z.to_nat retries) with 0 in Hlen by lia.
    destruct errs; [|discriminate].
    rewrite py_range_nil by lia. simpl.
    unfold bind, logging_error, effect, ret. f_equal.
    apply world_ext; simpl; auto using app_nil_r.
  - rewrite (attempts_loop_failures errs 1 (retries + 1) w Hd); [| lia | assumption].
    rewrite py_range_nil by lia. simpl.
    unfold bind, logging_error, effect, ret. now rewrite emit_emit.
Qed.

(** A service that always fails supplies a run of failures of any
    length. *)
Lemma always_failing_run (n : nat) :
  (forall h k, exists e, api h k = Raises e /\ transient e = true) ->
  forall w, exists errs, List.length errs = n /\ fails_with api message errs w.
Proof.
  intros Hall. induction n as [|n IH]; intros w.
  - exists []. split; [reflexivity|]. intros [|i] e H; discriminate.
  - destruct (Hall (calls w) (send message)) as (e & Ha & Ht).
    destruct (IH (add_calls w [(send message)])) as (errs & Hlen & Hf).
    exists (e :: errs). split; [simpl; congruence|].
    intros [|i] e' Hi; simpl in Hi.
    + injection Hi as <-. simpl. rewrite app_nil_r. auto.
    + specialize (Hf i e' Hi). simpl in Hf. rewrite <- app_assoc in Hf.
      exact Hf.
Qed.

Lemma retry_events_no_error (errs : list exn) (attempt : Z) (t : string) :
  ~ In (Logged ERROR t) (retry_events retries delay errs attempt).
Proof.
  revert attempt. induction errs as [|e errs IH]; intros attempt; simpl.
  - tauto.
  - intros [H | [H | H]]; try discriminate. exact (IH _ H).
Qed.

(** What the loop leaves alone: an attempt reads no input and makes one
    call. *)
Lemma attempt_once_frame (attempt : Z) (w : world) :
  let w' := snd (attempt_once fill api message retries delay attempt w) in
  stdin w' = stdin w /\ calls w' = calls w ++ [(send message)] /\ width w' = width w.
Proof.
  unfold attempt_once, try_except, bind, prompt. change (mk_call message false) with (send message).
  destruct (api (calls w) (send message)) as [r|e].
  - rewrite handle_response_spec. simpl.
    destruct (rendering fill r (width w)); simpl; auto.
  - destruct (isinstance e ConnectionError || isinstance e TimeoutError).
    + unfold logging_warning, time_sleep, effect, raise.
      destruct (delay <? 0)%Z; simpl; auto.
    + destruct (isinstance e Exception); simpl; auto.
Qed.

Lemma attempts_loop_frame (attempts : list Z) :
  forall w,
    let w' := snd (attempts_loop fill api message retries delay attempts w) in
    stdin w' = stdin w /\ width w' = width w /\
    exists n, calls w' = calls w ++ repeat (send message) n.
Proof.
  induction attempts as [|a attempts IH]; intros w; simpl.
  - repeat split. exists 0. simpl. now rewrite app_nil_r.
  - destruct (attempt_once_frame a w) as (H1 & H2 & H3).
    unfold bind.
    destruct (attempt_once fill api message retries delay a w)
      as [[[o|]|e] w1]; simpl in *.
    + repeat split; auto. now exists 1.
    + destruct (IH w1) as (I1 & I2 & n & I3).
      repeat split; try congruence.
      exists (S n). rewrite I3, H2, <- app_assoc. reflexivity.
    + repeat split; auto. now exists 1.
Qed.

Lemma process_message_frame (w : world) :
  let w' := snd (process_message fill api message retries delay w) in
  stdin w' = stdin w /\ width w' = width w /\
  exists n, calls w' = calls w ++ repeat (send message) n.
Proof.
  apply attempts_loop_frame.
Qed.

(** With at least one attempt allowed, the message is sent. *)
Lemma process_message_first_call (w : world) :
  (1 <= retries)%Z ->
  exists more,
    calls (snd (process_message fill api message retries delay w)) =
    calls w ++ (send message) :: more.
Proof.
  intros Hr. unfold process_message. rewrite py_range_cons by lia.
  generalize (py_range (1 + 1) (retries + 1)). intros tail.
  simpl attempts_loop. unfold bind.
  destruct (attempt_once_frame 1 w) as (H1 & H2 & H3).
  destruct (attempt_once fill api message retries delay 1 w)
    as [[[o|]|e] w1]; simpl in *.
  - now exists [].
  - destruct (attempts_loop_frame tail w1) as (_ & _ & n & I3).
    exists (repeat (send message) n). rewrite I3, H2, <- app_assoc. reflexivity.
  - now exists [].
Qed.

End Delivery.

(** ** Delivery: what [process_message] does *)

Section DeliveryClaims.

Variable fill : nat -> string -> string.
Variable api : MetaAI.
Variable message : string.

(** C3.  When every call of the service fails with a transient failure
    (a [ConnectionError] or a [TimeoutError]) and [retries] is 3,
    [process_message] calls the service exactly three times, leaves the
    loop through its [else] (outcome [Exhausted]) and logs one error,
    after the three warnings of the attempts, each followed by its
    sleep. *)
Theorem always_transient_three_attempts (delay : Z) (w : world) :
  (0 <= delay)%Z ->
  (forall h k, exists e, api h k = Raises e /\ transient e = true) ->
  exists e1 e2 e3 w',
    process_message fill api message 3 delay w = (Val Exhausted, w') /\
    calls w' = calls w ++ [(send message); (send message); (send message)] /\
    out w' = out w ++
             [Logged WARNING (retry_text e1 1 3); Slept delay;
              Logged WARNING (retry_text e2 2 3); Slept delay;
              Logged WARNING (retry_text e3 3 3); Slept delay;
              Logged ERROR (exhausted_text 3)] /\
    stdin w' = stdin w.
Proof.
  intros Hd Hall.
  destruct (always_failing_run api message 3 Hall w) as (errs & Hlen & Hf).
  destruct errs as [|e1 [|e2 [|e3 [|e4 errs]]]]; try discriminate.
  exists e1, e2, e3. eexists. split.
  - apply (process_message_exhausts fill api message 3 delay [e1; e2; e3] w Hd);
      [reflexivity | exact Hf].
  - simpl. auto.
Qed.

(** C4.  When the first call raises an exception that is an [Exception]
    but neither a [ConnectionError] nor a [TimeoutError], and [retries]
    is at least 1, [process_message] calls the service exactly once,
    logs the error and leaves the loop (outcome [Aborted]): nothing else
    is logged and there is no sleep. *)
Theorem fatal_first_attempt_aborts (retries delay : Z) (e : exn) (w : world) :
  (1 <= retries)%Z ->
  api (calls w) (send message) = Raises e ->
  fatal e = true ->
  exists w',
    process_message fill api message retries delay w = (Val (Aborted e), w') /\
    calls w' = calls w ++ [(send message)] /\
    out w' = out w ++ [Logged ERROR (unexpected_text e)] /\
    stdin w' = stdin w.
Proof.
  intros Hr Ha Hf. eexists. split.
  - unfold process_message. rewrite py_range_cons by lia.
    simpl attempts_loop. unfold bind at 1.
    rewrite (attempt_fatal fill api message retries delay 1 e w Ha Hf).
    reflexivity.
  - simpl. auto.
Qed.

(** C5.  When the first call fails with a transient failure and the
    second returns a reply the renderer accepts, [process_message] with
    [retries] 3 calls the service exactly twice and leaves the loop with
    that reply (outcome [Completed]); the trace is the warning and the
    sleep of the first attempt, then the rendering of the reply. *)
Theorem second_attempt_succeeds (delay : Z) (e : exn) (r : pyval)
        (evs : list event) (w : world) :
  (0 <= delay)%Z ->
  api (calls w) (send message) = Raises e -> transient e = true ->
  api (calls w ++ [(send message)]) (send message) = Returns r ->
  rendering fill r (width w) = Some evs ->
  exists w',
    process_message fill api message 3 delay w = (Val (Completed r), w') /\
    calls w' = calls w ++ [(send message); (send message)] /\
    out w' = out w ++ [Logged WARNING (retry_text e 1 3); Slept delay] ++ evs /\
    stdin w' = stdin w.
Proof.
  intros Hd Ha Ht Hb Hr. eexists. split.
  - apply (process_message_returns_after fill api message 3 delay [e] r evs w);
      try assumption; [reflexivity|].
    intros [|[|i]] e' Hi; try discriminate.
    injection Hi as <-. simpl. rewrite app_nil_r. auto.
  - simpl. auto.
Qed.

(** C9.  When a call returns a reply that is not a dict with a "message"
    key, possibly after transient failures, [handle_response] prints the
    "Unexpected response format." notice and returns; [process_message]
    leaves the loop at that attempt (outcome [Completed]), having made
    one call per failure and one for the reply, and logs no error: the
    trace holds the warnings and sleeps of the failures and then the
    notice. *)
Theorem reply_without_message_completes (retries delay : Z)
        (errs : list exn) (r : pyval) (w : world) :
  (0 <= delay)%Z ->
  (Z.of_nat (List.length errs) < retries)%Z ->
  fails_with api message errs w ->
  api (calls w ++ repeat (send message) (List.length errs)) (send message) = Returns r ->
  has_message r = false ->
  (forall w0,
      handle_response fill r w0 = (Val tt, emit w0 [unexpected_format_notice])) /\
  exists w',
    process_message fill api message retries delay w = (Val (Completed r), w') /\
    calls w' = calls w ++ repeat (send message) (List.length errs) ++ [(send message)] /\
    out w' = out w ++ retry_events retries delay errs 1 ++ [unexpected_format_notice] /\
    (forall t, ~ In (Logged ERROR t)
                  (retry_events retries delay errs 1 ++ [unexpected_format_notice])) /\
    stdin w' = stdin w.
Proof.
  intros Hd Hlen Hf Ha Hm. split.
  - intros w0. rewrite handle_response_spec.
    now rewrite (rendering_without_message fill r _ Hm).
  - eexists. split.
    + apply (process_message_returns_after fill api message retries delay errs r
               [unexpected_format_notice] w); try assumption.
      apply rendering_without_message, Hm.
    + simpl. repeat split; auto.
      * f_equal. apply repeat_cons.
      * intros t Hin. apply in_app_or in Hin as [Hin | [Hin | []]].
        -- exact (retry_events_no_error retries delay errs 1 t Hin).
        -- discriminate.
Qed.

End DeliveryClaims.

(** ** Reading input *)

Lemma bind_val {A B} (m : M A) (k : A -> M B) (w w' : world) (a : A) :
  m w = (Val a, w') -> bind m k w = k a w'.
Proof.
  unfold bind. now intros ->.
Qed.


Lemma try_except_val {A} (m : M A) (h : exn -> M A) (w w' : world) (a : A) :
  m w = (Val a, w') -> try_except m h w = (Val a, w').
Proof.
  unfold try_except. now intros ->.
Qed.

Lemma get_message_line (prompt_text line : string) (rest : list tty)
      (w : world) :
  stdin w = Line line :: rest ->
  get_message prompt_text w =
  (Val (PyStr.strip line),
   after_reading w rest [Printed prompt_text "bold green"]).
Proof.
  intros H. unfold get_message, bind, console_print, effect, input. simpl.
  rewrite H. reflexivity.
Qed.

(** The loop of [get_multiline_message] is the source's loop: read a line,
    stop at the sentinel, else append and go on. *)
Lemma multiline_loop_unfold (lines : list string) (w : world) :
  multiline_loop lines w =
  bind input
       (fun line => if is_end line then ret lines
                    else multiline_loop (lines ++ [line])) w.
Proof.
  unfold multiline_loop, bind, input.
  destruct (stdin w) as [|[line|] rest] eqn:H; simpl.
  - f_equal. apply world_ext; simpl; auto.
  - destruct (is_end line); [reflexivity|].
    unfold multiline_loop. simpl. now destruct (read_block _ rest).
  - reflexivity.
Qed.

Lemma read_block_lines (lines : list string) :
  forall (acc : list string) (sentinel : string) (rest : list tty),
    Forall not_end lines -> is_end sentinel = true ->
    read_block acc (map Line lines ++ Line sentinel :: rest) =
    (Val (acc ++ lines), rest).
Proof.
  induction lines as [|l lines IH]; intros acc sentinel rest Hl Hs; simpl.
  - rewrite Hs, app_nil_r. reflexivity.
  - inversion Hl as [|? ? Hl1 Hl2]; subst. rewrite Hl1.
    rewrite (IH _ sentinel rest Hl2 Hs), <- app_assoc. reflexivity.
Qed.

Lemma get_multiline_message_lines (prompt_text : string)
      (lines : list string) (sentinel : string) (rest : list tty) (w : world) :
  Forall not_end lines -> is_end sentinel = true ->
  stdin w = map Line lines ++ Line sentinel :: rest ->
  get_multiline_message prompt_text w =
  (Val (PyStr.strip (PyStr.join nl lines)),
   after_reading w rest [Printed prompt_text "bold green"]).
Proof.
  intros Hl Hs H.
  unfold get_multiline_message, bind, console_print, effect, multiline_loop.
  simpl. rewrite H, (read_block_lines lines [] sentinel rest Hl Hs).
  reflexivity.
Qed.

(** ** One turn of the session loop *)

Section Turn.

Variable fill : nat -> string -> string.
Variable api : MetaAI.
Variables retries delay : Z.

Lemma ensure_started_started (s : session) (w : world) :
  conversation_started s = true -> ensure_started fill api s w = (Val s, w).
Proof.
  intros H. unfold ensure_started. now rewrite H.
Qed.


Lemma read_message_single (s : session) (line : string) (rest : list tty)
      (w : world) :
  multiline_mode s = false ->
  stdin w = Line line :: rest ->
  String.eqb (PyStr.lower (PyStr.strip line)) "multiline" = false ->
  read_message s w =
  (Val (Some (PyStr.strip line), s), after_reading w rest [message_prompt]).
Proof.
  intros Hm H Hne. unfold read_message. rewrite Hm. simpl.
  rewrite (bind_val _ _ _ _ _ (get_message_line _ line rest w H)).
  now rewrite Hne.
Qed.


Lemma read_message_block (s : session) (lines : list string)
      (sentinel : string) (rest : list tty) (w : world) :
  multiline_mode s = true ->
  Forall not_end lines -> is_end sentinel = true ->
  stdin w = map Line lines ++ Line sentinel :: rest ->
  read_message s w =
  (Val (Some (PyStr.strip (PyStr.join nl lines)), set_multiline s false),
   after_reading w rest [block_prompt]).
Proof.
  intros Hm Hl Hs H. unfold read_message. rewrite Hm. simpl.
  now rewrite (bind_val _ _ _ _ _
                 (get_multiline_message_lines _ lines sentinel rest w Hl Hs H)).
Qed.



Lemma dispatch_newchat (message : string) (s : session) (w : world) :
  PyStr.lower message = "newchat" ->
  dispatch fill api retries delay message s w =
  (Val (Continue (set_started s false)), w).
Proof.
  intros Hm. unfold dispatch. now rewrite Hm.
Qed.

Lemma dispatch_message (message : string) (s : session) (w : world) :
  String.eqb (PyStr.lower message) "exit" = false ->
  String.eqb (PyStr.lower message) "newchat" = false ->
  PyStr.truthy message = true ->
  dispatch fill api retries delay message s w =
  bind (process_message fill api message retries delay)
       (fun _ => ret (Continue s)) w.
Proof.
  intros H1 H2 H3. unfold dispatch. now rewrite H1, H2, H3.
Qed.

Lemma dispatch_empty (s : session) (w : world) :
  dispatch fill api retries delay EmptyString s w =
  (Val (Continue s), emit w [invalid_notice]).
Proof.
  reflexivity.
Qed.

Lemma dispatch_mode (message : string) (s s' : session) (w w' : world) :
  dispatch fill api retries delay message s w = (Val (Continue s'), w') ->
  multiline_mode s' = multiline_mode s.
Proof.
  unfold dispatch.
  destruct (String.eqb (PyStr.lower message) "exit").
  - unfold bind at 1.
    destruct (get_message _ w) as [[answer|e] w1]; [|discriminate].
    destruct (String.eqb (PyStr.lower answer) "yes").
    + unfold bind, clear_screen, console_print, effect, ret. discriminate.
    + unfold ret. intros H. now inversion H.
  - destruct (String.eqb (PyStr.lower message) "newchat").
    + unfold ret. intros H. now inversion H.
    + destruct (PyStr.truthy message).
      * unfold bind. destruct (process_message _ _ _ _ _ w) as [[o|e] w1];
          unfold ret; intros H; now inversion H.
      * unfold bind, console_print, effect, ret. intros H. now inversion H.
Qed.


End Turn.

(** ** The session loop: what a turn does *)


Section SessionClaims.

Variable fill : nat -> string -> string.
Variable api : MetaAI.
Variables retries delay : Z.

(** A turn whose body returns is that body. *)
Lemma turn_val (s : session) (w w' : world) (c : ctl) :
  loop_body fill api retries delay s w = (Val c, w') -> flow_iteration fill api retries delay s w = (Val c, w').
Proof.
  apply try_except_val.
Qed.

(** The body of a turn of a started session in single-line mode, on a
    line that is not the "multiline" switch. *)
Lemma body_single (s : session) (line : string) (rest : list tty) (w : world) :
  conversation_started s = true -> multiline_mode s = false ->
  stdin w = Line line :: rest ->
  String.eqb (PyStr.lower (PyStr.strip line)) "multiline" = false ->
  loop_body fill api retries delay s w =
  dispatch fill api retries delay (PyStr.strip line) s
           (after_reading w rest [message_prompt]).
Proof.
  intros Hs Hm H Hne. unfold loop_body.
  rewrite (bind_val _ _ _ _ _ (ensure_started_started fill api s w Hs)).
  now rewrite (bind_val _ _ _ _ _ (read_message_single s line rest w Hm H Hne)).
Qed.

(** The body of a turn of a started session in multiline mode. *)
Lemma body_block (s : session) (lines : list string) (sentinel : string)
      (rest : list tty) (w : world) :
  conversation_started s = true -> multiline_mode s = true ->
  Forall not_end lines -> is_end sentinel = true ->
  stdin w = map Line lines ++ Line sentinel :: rest ->
  loop_body fill api retries delay s w =
  dispatch fill api retries delay (PyStr.strip (PyStr.join nl lines))
           (set_multiline s false) (after_reading w rest [block_prompt]).
Proof.
  intros Hs Hm Hl He H. unfold loop_body.
  rewrite (bind_val _ _ _ _ _ (ensure_started_started fill api s w Hs)).
  now rewrite (bind_val _ _ _ _ _
                 (read_message_block s lines sentinel rest w Hm Hl He H)).
Qed.



(** C10.  In single-line mode a line that reads "END" (stripped, in any
    case) is an ordinary message: it is not empty, it is no command,
    and the turn hands it, stripped, to [process_message] and keeps the
    session as it was; with [retries] at least 1 the first call made
    sends it. *)
Theorem end_is_a_message_in_single_line (s : session) (line : string)
        (rest : list tty) (w : world) :
  conversation_started s = true -> multiline_mode s = false ->
  stdin w = Line line :: rest ->
  is_end line = true ->
  let read := after_reading w rest [message_prompt] in
  PyStr.strip line <> EmptyString /\
  loop_body fill api retries delay s w =
  bind (process_message fill api (PyStr.strip line) retries delay)
       (fun _ => ret (Continue s)) read /\
  ((1 <= retries)%Z ->
   exists more,
     calls (snd (loop_body fill api retries delay s w)) =
     calls w ++ mk_call (PyStr.strip line) false :: more).
Proof.
  intros Hs Hm H He read.
  pose proof (is_end_length line He) as Hlen.
  assert (Hl : String.length (PyStr.lower (PyStr.strip line)) = 3).
  { unfold PyStr.lower. now rewrite length_map_chars. }
  assert (Hb : loop_body fill api retries delay s w =
               bind (process_message fill api (PyStr.strip line) retries delay)
                    (fun _ => ret (Continue s)) read).
  { rewrite (body_single s line rest w Hs Hm H)
      by (apply eqb_length_false; rewrite Hl; discriminate).
    apply dispatch_message.
    - apply eqb_length_false. rewrite Hl. discriminate.
    - apply eqb_length_false. rewrite Hl. discriminate.
    - apply truthy_length. rewrite Hlen. discriminate. }
  split; [intros E; rewrite E in Hlen; discriminate|].
  split; [exact Hb|].
  intros Hr. rewrite Hb. unfold bind.
  destruct (process_message_first_call fill api (PyStr.strip line)
              retries delay read Hr) as (more & Hc).
  exists more.
  destruct (process_message fill api (PyStr.strip line) retries delay read)
    as [[o|e] w1]; simpl in *; exact Hc.
Qed.

End SessionClaims.

Section SessionStart.

Variable fill : nat -> string -> string.
Variable api : MetaAI.



End SessionStart.

Section MultilineDispatch.

Variable fill : nat -> string -> string.

Variable api : MetaAI.
Variables retries delay : Z.


(** C2, as the code has it.  When the block captured in multiline mode
    is empty once joined and stripped, the turn takes the last branch of
    [dispatch]: it prints the "Invalid input." notice, calls the service
    not at all, and goes on in single-line mode. *)
Theorem empty_block_is_invalid (s : session) (lines : list string)
        (sentinel : string) (rest : list tty) (w : world) :
  conversation_started s = true -> multiline_mode s = true ->
  Forall not_end lines -> is_end sentinel = true ->
  stdin w = map Line lines ++ Line sentinel :: rest ->
  PyStr.strip (PyStr.join nl lines) = EmptyString ->
  let w' := after_reading w rest [block_prompt; invalid_notice] in
  loop_body fill api retries delay s w =
  (Val (Continue (set_multiline s false)), w') /\
  calls w' = calls w.
Proof.
  intros Hs Hm Hl He H Hempty w'. split; [|reflexivity].
  rewrite (body_block fill api retries delay s lines sentinel rest w
             Hs Hm Hl He H).
  rewrite Hempty, dispatch_empty. unfold after_reading.
  now rewrite emit_emit.
Qed.

End MultilineDispatch.

(** ** The loop ends on every finite input *)

Section Termination.

Variable fill : nat -> string -> string.
Variable api : MetaAI.
Variables retries delay : Z.

Lemma handle_response_stdin (r : pyval) (w : world) :
  stdin (snd (handle_response fill r w)) = stdin w.
Proof.
  rewrite handle_response_spec. now destruct (rendering fill r (width w)).
Qed.

Lemma start_new_conversation_stdin (w : world) :
  stdin (snd (start_new_conversation fill api w)) = stdin w.
Proof.
  unfold start_new_conversation, try_except.
  unfold bind at 1 2 3. simpl. unfold bind, prompt. simpl.
  destruct (api _ _) as [r|e].
  - pose proof (handle_response_stdin r) as Hr.
    match goal with
    | |- context [handle_response fill r ?w1] =>
        specialize (Hr w1); destruct (handle_response fill r w1) as [[[]|e] w2]
    end; simpl in *.
    + exact Hr.
    + destruct (isinstance e Exception); simpl; exact Hr.
  - destruct (isinstance e Exception); reflexivity.
Qed.

Lemma ensure_started_stdin (s : session) (w : world) :
  stdin (snd (ensure_started fill api s w)) = stdin w.
Proof.
  unfold ensure_started. destruct (conversation_started s); simpl;
    [reflexivity|].
  unfold bind at 1 2. simpl. unfold bind.
  match goal with
  | |- context [start_new_conversation fill api ?w1] =>
      pose proof (start_new_conversation_stdin w1) as H;
      destruct (start_new_conversation fill api w1) as [[[]|e] w2]
  end; simpl in *; exact H.
Qed.

Lemma get_message_shrinks (p : string) (w w' : world) (m : string) :
  get_message p w = (Val m, w') ->
  List.length (stdin w') < List.length (stdin w).
Proof.
  unfold get_message, bind, console_print, effect, input. simpl.
  destruct (stdin w) as [|[line|] rest]; try discriminate.
  unfold ret. intros H. inversion H. simpl. lia.
Qed.

Lemma read_block_shrinks (pending : list tty) :
  forall acc ls rest,
    read_block acc pending = (Val ls, rest) ->
    List.length rest < List.length pending.
Proof.
  induction pending as [|[line|] pending IH]; intros acc ls rest; simpl;
    try discriminate.
  destruct (is_end line).
  - intros H. inversion H. lia.
  - intros H. apply IH in H. lia.
Qed.

Lemma read_message_shrinks (s : session) (w w' : world)
      (r : option string * session) :
  read_message s w = (Val r, w') ->
  List.length (stdin w') < List.length (stdin w).
Proof.
  unfold read_message. destruct (multiline_mode s); simpl.
  - unfold get_multiline_message, bind, console_print, effect, multiline_loop.
    simpl. destruct (read_block [] (stdin w)) as [[ls|e] rest] eqn:Hb;
      [|discriminate].
    unfold ret. intros H. inversion H. simpl.
    exact (read_block_shrinks _ _ _ _ Hb).
  - unfold bind at 1.
    destruct (get_message "Your message: " w) as [[m|e] w1] eqn:Hg;
      [|discriminate].
    apply get_message_shrinks in Hg.
    destruct (String.eqb (PyStr.lower m) "multiline").
    + unfold bind, console_print, effect, ret. intros H. inversion H.
      simpl. exact Hg.
    + unfold ret. intros H. inversion H. subst. exact Hg.
Qed.

Lemma dispatch_keeps (message : string) (s : session) (w w' : world)
      (c : ctl) :
  dispatch fill api retries delay message s w = (Val c, w') ->
  List.length (stdin w') <= List.length (stdin w).
Proof.
  unfold dispatch.
  destruct (String.eqb (PyStr.lower message) "exit").
  - unfold bind at 1.
    destruct (get_message _ w) as [[answer|e] w1] eqn:Hg; [|discriminate].
    apply get_message_shrinks in Hg.
    destruct (String.eqb (PyStr.lower answer) "yes").
    + unfold bind, clear_screen, console_print, effect, ret.
      intros H. inversion H. simpl. lia.
    + unfold ret. intros H. inversion H. subst. lia.
  - destruct (String.eqb (PyStr.lower message) "newchat").
    + unfold ret. intros H. inversion H. lia.
    + destruct (PyStr.truthy message).
      * unfold bind.
        destruct (process_message_frame fill api message retries delay w)
          as (Hf & _).
        destruct (process_message fill api message retries delay w)
          as [[o|e] w1]; [|discriminate].
        unfold ret. intros H. inversion H. subst. simpl in Hf.
        rewrite Hf. lia.
      * unfold bind, console_print, effect, ret. intros H. inversion H.
        simpl. lia.
Qed.

(** A turn that goes on to a next turn has read at least one line. *)
Lemma turn_shrinks (s s' : session) (w w' : world) :
  flow_iteration fill api retries delay s w = (Val (Continue s'), w') ->
  List.length (stdin w') < List.length (stdin w).
Proof.
  unfold flow_iteration, try_except.
  destruct (loop_body fill api retries delay s w) as [[c|e] w1] eqn:Hb.
  - intros H. inversion H. subst. clear H.
    unfold loop_body in Hb. unfold bind at 1 in Hb.
    pose proof (ensure_started_stdin s w) as H0.
    destruct (ensure_started fill api s w) as [[s1|e] w2]; [|discriminate].
    simpl in H0. unfold bind in Hb.
    destruct (read_message s1 w2) as [[[[m|] s2]|e] w3] eqn:Hr;
      try discriminate.
    + apply read_message_shrinks in Hr. apply dispatch_keeps in Hb.
      rewrite <- H0. lia.
    + apply read_message_shrinks in Hr. unfold ret in Hb. inversion Hb.
      subst. rewrite <- H0. lia.
  - destruct (isinstance e KeyboardInterrupt).
    + unfold bind, effect, ret. discriminate.
    + discriminate.
Qed.

(** X20.  With more turns allowed than lines left to read, the loop is
    left by a [break] or by an exception: the turns do not run out. *)
Lemma flow_loop_total (fuel : nat) :
  forall s w,
    List.length (stdin w) < fuel ->
    fst (flow_loop fill fuel api retries delay s w) <> Val None.
Proof.
  induction fuel as [|fuel IH]; intros s w Hlen; [lia|].
  simpl. unfold bind.
  destruct (flow_iteration fill api retries delay s w) as [[[s'|]|e] w1] eqn:Ht.
  - apply turn_shrinks in Ht. apply IH. lia.
  - simpl. discriminate.
  - simpl. discriminate.
Qed.

End Termination.

(** ** The properties at concrete inputs *)

(** Blank lines inside a block are kept, the outer edges are stripped and
    the sentinel is matched in any case. *)
Example block_keeps_inner_blank_lines :
  get_multiline_message multiline_prompt
    (console [Line "  first"; Line EmptyString; Line "second  "; Line EmptyString; Line " end ";
              Line "next"]) =
  (Val ("first" ++ nl ++ nl ++ "second")%string,
   after_reading (console []) [Line "next"] [block_prompt]).
Proof.
  reflexivity.
Qed.

(** The three answers that do not confirm, and two that do. *)
Example exit_then_no :
  flow_iteration no_wrap echo 3 2 single_line (console [Line "exit"; Line "no"]) =
  (Val (Continue single_line),
   after_reading (console []) [] [message_prompt; exit_prompt]).
Proof.
  reflexivity.
Qed.

Example exit_then_empty :
  flow_iteration no_wrap echo 3 2 single_line (console [Line "exit"; Line EmptyString]) =
  (Val (Continue single_line),
   after_reading (console []) [] [message_prompt; exit_prompt]).
Proof.
  reflexivity.
Qed.

Example exit_then_y :
  flow_iteration no_wrap echo 3 2 single_line (console [Line "EXIT"; Line "y"]) =
  (Val (Continue single_line),
   after_reading (console []) [] [message_prompt; exit_prompt]).
Proof.
  reflexivity.
Qed.

Example exit_then_yes_upper :
  flow_iteration no_wrap echo 3 2 single_line (console [Line "exit"; Line "YES"]) =
  (Val Break,
   after_reading (console []) []
     [message_prompt; exit_prompt; Cleared; ending_notice]).
Proof.
  reflexivity.
Qed.

Example exit_then_yes_padded :
  flow_iteration no_wrap echo 3 2 single_line (console [Line " Exit "; Line " Yes "]) =
  (Val Break,
   after_reading (console []) []
     [message_prompt; exit_prompt; Cleared; ending_notice]).
Proof.
  reflexivity.
Qed.

(** A whole run: the greeting fails, a block is sent, and the user
    leaves. *)
Example run_with_failed_greeting :
  let typed := [Line "multiline"; Line "a"; Line "END"; Line "exit"; Line "yes"] in
  let result := flow_conversation no_wrap 6
                  (fun h k => if call_new_conversation k
                              then Raises (mk_exn ValueError "no session")
                              else echo h k)
                  3 2 (console typed) in
  fst result = Val (Some tt) /\
  calls (snd result) = [greeting; send "a"] /\
  stdin (snd result) = [].
Proof.
  vm_compute. auto.
Qed.

(** A reply whose "message" is not text makes the renderer raise; the
    retry loop takes it as a fatal failure. *)
Example reply_with_non_text_message :
  process_message no_wrap (fun _ _ => Returns (VDict [("message", VInt 7)]))
                  "hi" 3 2 (console []) =
  (Val (Aborted attribute_error),
   emit (add_calls (console []) [send "hi"])
        [Logged ERROR (unexpected_text attribute_error)]).
Proof.
  reflexivity.
Qed.

(** A negative delay makes [time.sleep] raise inside the handler: the
    exception leaves [process_message] after the first attempt. *)
Example negative_delay_raises :
  fst (process_message no_wrap unreachable "hi" 3 (-1) (console [])) =
  Raise (mk_exn ValueError "sleep length must be non-negative").
Proof.
  reflexivity.
Qed.


(** C2, counterexample: a block of the sentinel alone is answered with
    the "Invalid input." notice and no call is made. *)
Lemma lone_sentinel_is_not_sent :
  ~ empty_block_sent no_wrap.
Proof.
  intros H.
  assert (Hr : (1 <= 3)%Z) by lia.
  specialize (H echo 3%Z 2%Z multiline [] "END" [] (console [Line "END"])
                Hr eq_refl eq_refl (Forall_nil _) eq_refl eq_refl eq_refl).
  destruct H as [more H]. vm_compute in H. discriminate H.
Qed.


Lemma empty_block_is_invalid_witness :
  Forall not_end [" "; EmptyString] /\
  is_end "End" = true /\
  PyStr.strip (PyStr.join nl [" "; EmptyString]) = EmptyString /\
  loop_body no_wrap echo 3 2 multiline
            (console [Line " "; Line EmptyString; Line "End"; Line "hello"]) =
  (Val (Continue single_line),
   after_reading (console []) [Line "hello"] [block_prompt; invalid_notice]).
Proof.
  assert (Hl : Forall not_end [" "; EmptyString]) by (repeat constructor).
  split; [exact Hl|]. split; [reflexivity|]. split; [reflexivity|].
  exact (proj1 (empty_block_is_invalid no_wrap echo 3 2 multiline
                  [" "; EmptyString] "End" [Line "hello"]
                  (console [Line " "; Line EmptyString; Line "End"; Line "hello"])
                  eq_refl eq_refl Hl eq_refl eq_refl eq_refl)).
Defined.

Lemma always_transient_three_attempts_witness :
  (0 <= 2)%Z /\
  (forall h k, exists e, unreachable h k = Raises e /\ transient e = true) /\
  exists e1 e2 e3 w',
    process_message no_wrap unreachable "hi" 3 2 (console []) =
    (Val Exhausted, w') /\
    calls w' = calls (console []) ++ [send "hi"; send "hi"; send "hi"] /\
    out w' = out (console []) ++
             [Logged WARNING (retry_text e1 1 3); Slept 2;
              Logged WARNING (retry_text e2 2 3); Slept 2;
              Logged WARNING (retry_text e3 3 3); Slept 2;
              Logged ERROR (exhausted_text 3)] /\
    stdin w' = stdin (console []).
Proof.
  assert (H1 : (0 <= 2)%Z) by lia.
  assert (H2 : forall h k,
             exists e, unreachable h k = Raises e /\ transient e = true).
  { intros h k. eexists. split; reflexivity. }
  split; [exact H1|]. split; [exact H2|].
  exact (always_transient_three_attempts no_wrap unreachable "hi" 2
           (console []) H1 H2).
Defined.

Lemma fatal_first_attempt_aborts_witness :
  (1 <= 3)%Z /\
  fatal (mk_exn ValueError "bad request") = true /\
  exists w',
    process_message no_wrap rejecting "hi" 3 2 (console []) =
    (Val (Aborted (mk_exn ValueError "bad request")), w') /\
    calls w' = calls (console []) ++ [send "hi"] /\
    out w' = out (console []) ++
             [Logged ERROR (unexpected_text (mk_exn ValueError "bad request"))] /\
    stdin w' = stdin (console []).
Proof.
  assert (H1 : (1 <= 3)%Z) by lia.
  split; [exact H1|]. split; [reflexivity|].
  exact (fatal_first_attempt_aborts no_wrap rejecting "hi" 3 2
           (mk_exn ValueError "bad request") (console []) H1 eq_refl eq_refl).
Defined.

Lemma second_attempt_succeeds_witness :
  (0 <= 2)%Z /\
  transient (mk_exn TimeoutError "timed out") = true /\
  exists w',
    process_message no_wrap slow_start "hi" 3 2 (console []) =
    (Val (Completed (VDict [("message", VStr "hello")])), w') /\
    calls w' = calls (console []) ++ [send "hi"; send "hi"] /\
    out w' = out (console []) ++
             [Logged WARNING (retry_text (mk_exn TimeoutError "timed out") 1 3);
              Slept 2] ++
             [PrintedLine; Printed "hello" "bold dim"; PrintedLine] /\
    stdin w' = stdin (console []).
Proof.
  assert (H1 : (0 <= 2)%Z) by lia.
  split; [exact H1|]. split; [reflexivity|].
  exact (second_attempt_succeeds no_wrap slow_start "hi" 2
           (mk_exn TimeoutError "timed out")
           (VDict [("message", VStr "hello")])
           [PrintedLine; Printed "hello" "bold dim"; PrintedLine]
           (console []) H1 eq_refl eq_refl eq_refl eq_refl).
Defined.




Lemma reply_without_message_completes_witness :
  (0 <= 2)%Z /\ (Z.of_nat (List.length (@nil exn)) < 3)%Z /\
  fails_with mute "hi" [] (console []) /\
  has_message (VDict [("sources", VList [])]) = false /\
  exists w',
    process_message no_wrap mute "hi" 3 2 (console []) =
    (Val (Completed (VDict [("sources", VList [])])), w') /\
    calls w' = [send "hi"] /\
    out w' = [unexpected_format_notice].
Proof.
  assert (H1 : (0 <= 2)%Z) by lia.
  assert (H2 : (Z.of_nat (List.length (@nil exn)) < 3)%Z) by (simpl; lia).
  assert (H3 : fails_with mute "hi" [] (console [])).
  { intros [|i] e H; discriminate H. }
  split; [exact H1|]. split; [exact H2|]. split; [exact H3|].
  split; [reflexivity|].
  destruct (proj2 (reply_without_message_completes no_wrap mute "hi" 3 2 []
                     (VDict [("sources", VList [])]) (console [])
                     H1 H2 H3 eq_refl eq_refl))
    as (w' & Hp & Hc & Ho & _).
  exists w'. auto.
Defined.

Lemma end_is_a_message_in_single_line_witness :
  is_end " end " = true /\
  loop_body no_wrap echo 3 2 single_line (console [Line " end "]) =
  bind (process_message no_wrap echo "end" 3 2)
       (fun _ => ret (Continue single_line))
       (after_reading (console []) [] [message_prompt]).
Proof.
  split; [reflexivity|].
  exact (proj1 (proj2 (end_is_a_message_in_single_line no_wrap echo 3 2
                         single_line " end " [] (console [Line " end "])
                         eq_refl eq_refl eq_refl eq_refl))).
Defined.

(** * Further properties of the program *)

(** ** The world only moves forward *)

Lemma later_refl (w : world) : later w w.
Proof.
  repeat split.
  - now exists [].
  - exists []. now rewrite app_nil_r.
  - exists []. now rewrite app_nil_r.
Qed.

Lemma later_trans (a b c : world) : later a b -> later b c -> later a c.
Proof.
  intros ([r1 H1] & [m1 H2] & H3 & [s1 H4]) ([r2 I1] & [m2 I2] & I3 & [s2 I4]).
  repeat split.
  - exists (r1 ++ r2). now rewrite H1, I1, app_assoc.
  - exists (m1 ++ m2). now rewrite I2, H2, app_assoc.
  - congruence.
  - exists (s1 ++ s2). now rewrite I4, H4, app_assoc.
Qed.

Lemma later_emit (w : world) (evs : list event) : later w (emit w evs).
Proof.
  repeat split; simpl.
  - now exists [].
  - exists []. now rewrite app_nil_r.
  - now exists evs.
Qed.

Lemma later_read (w : world) (read rest : list tty) :
  stdin w = read ++ rest -> later w (set_stdin w rest).
Proof.
  intros H. repeat split; simpl.
  - now exists read.
  - exists []. now rewrite app_nil_r.
  - exists []. now rewrite app_nil_r.
Qed.

Lemma later_call (w : world) (c : api_call) : later w (add_call w c).
Proof.
  repeat split; simpl.
  - now exists [].
  - now exists [c].
  - exists []. now rewrite app_nil_r.
Qed.

Lemma advances_ret {A} (a : A) : advances (ret a).
Proof.
  intros w. apply later_refl.
Qed.

Lemma advances_raise {A} (e : exn) : advances (@raise A e).
Proof.
  intros w. apply later_refl.
Qed.

Lemma advances_effect (ev : event) : advances (effect ev).
Proof.
  intros w. apply later_emit.
Qed.

Lemma advances_input : advances input.
Proof.
  intros w. unfold input. destruct (stdin w) as [|[line|] rest] eqn:H; simpl.
  - apply later_refl.
  - now apply (later_read w [Line line]).
  - now apply (later_read w [CtrlC]).
Qed.

Lemma advances_prompt (api : MetaAI) (message : string) (flag : bool) :
  advances (prompt api message flag).
Proof.
  intros w. unfold prompt. destruct (api _ _); apply later_call.
Qed.

Lemma advances_bind {A B} (m : M A) (k : A -> M B) :
  advances m -> (forall a, advances (k a)) -> advances (bind m k).
Proof.
  intros Hm Hk w. unfold bind. specialize (Hm w).
  destruct (m w) as [[a|e] w1]; simpl in *.
  - eapply later_trans; [exact Hm | apply Hk].
  - exact Hm.
Qed.

Lemma advances_try_except {A} (m : M A) (h : exn -> M A) :
  advances m -> (forall e, advances (h e)) -> advances (try_except m h).
Proof.
  intros Hm Hh w. unfold try_except. specialize (Hm w).
  destruct (m w) as [[a|e] w1]; simpl in *.
  - exact Hm.
  - eapply later_trans; [exact Hm | apply Hh].
Qed.

Lemma advances_try_finally {A} (m : M A) (f : M unit) :
  advances m -> advances f -> advances (try_finally m f).
Proof.
  intros Hm Hf w. unfold try_finally. specialize (Hm w).
  destruct (m w) as [r w1]. specialize (Hf w1).
  destruct (f w1) as [[[]|e] w2]; simpl in *;
    eapply later_trans; eassumption.
Qed.

Lemma advances_time_sleep (seconds : Z) : advances (time_sleep seconds).
Proof.
  unfold time_sleep. destruct (seconds <? 0)%Z;
    [apply advances_raise | apply advances_effect].
Qed.

Lemma advances_console_width : advances console_width.
Proof.
  intros w. apply later_refl.
Qed.

Lemma read_block_suffix (pending : list tty) :
  forall acc, exists read, pending = read ++ snd (read_block acc pending).
Proof.
  induction pending as [|[line|] pending IH]; intros acc; simpl.
  - now exists [].
  - destruct (is_end line).
    + now exists [Line line].
    + destruct (IH (acc ++ [line])) as [read H].
      exists (Line line :: read). simpl. now rewrite <- H.
  - now exists [CtrlC].
Qed.

Lemma advances_multiline_loop (lines : list string) :
  advances (multiline_loop lines).
Proof.
  intros w. unfold multiline_loop.
  destruct (read_block_suffix (stdin w) lines) as [read H].
  destruct (read_block lines (stdin w)) as [r rest]. simpl in *.
  now apply (later_read w read).
Qed.

(** Breaks a goal [advances m] down along the structure of [m]; [known]
    is tried first, for the functions already dealt with. *)
Ltac frame_with known :=
  repeat first
    [ known | apply advances_ret | apply advances_raise
    | apply advances_effect | apply advances_input | apply advances_prompt
    | apply advances_time_sleep | apply advances_console_width
    | apply advances_multiline_loop
    | apply advances_bind | apply advances_try_except
    | apply advances_try_finally
    | match goal with
      | |- forall _, _ => intro
      | |- advances (if ?b then _ else _) => destruct b
      | |- advances (match ?x with _ => _ end) => destruct x
      end
    | assumption ].

Ltac frame := frame_with fail.

Section Advances.

Variable fill : nat -> string -> string.
Variable api : MetaAI.
Variables retries delay : Z.

Lemma advances_handle_response (r : pyval) :
  advances (handle_response fill r).
Proof.
  unfold handle_response, format_text_block, print_line, console_print.
  frame.
Qed.

Lemma advances_start_new_conversation :
  advances (start_new_conversation fill api).
Proof.
  unfold start_new_conversation, clear_screen, display_instructions,
    console_print, logging_error.
  frame_with ltac:(apply advances_handle_response).
Qed.

Lemma advances_ensure_started (s : session) :
  advances (ensure_started fill api s).
Proof.
  unfold ensure_started, clear_screen, display_instructions, console_print.
  frame_with ltac:(apply advances_start_new_conversation).
Qed.

Lemma advances_get_message (p : string) : advances (get_message p).
Proof.
  unfold get_message, console_print. frame.
Qed.

Lemma advances_read_message (s : session) : advances (read_message s).
Proof.
  unfold read_message, get_multiline_message, console_print.
  frame_with ltac:(apply advances_get_message).
Qed.

Lemma advances_attempt_once (message : string) (attempt : Z) :
  advances (attempt_once fill api message retries delay attempt).
Proof.
  unfold attempt_once, logging_warning, logging_error.
  frame_with ltac:(apply advances_handle_response).
Qed.

Lemma advances_attempts_loop (message : string) (attempts : list Z) :
  advances (attempts_loop fill api message retries delay attempts).
Proof.
  induction attempts as [|a attempts IH]; simpl; unfold logging_error.
  - frame.
  - frame_with ltac:(apply advances_attempt_once).
Qed.

Lemma advances_process_message (message : string) :
  advances (process_message fill api message retries delay).
Proof.
  apply advances_attempts_loop.
Qed.

Lemma advances_dispatch (message : string) (s : session) :
  advances (dispatch fill api retries delay message s).
Proof.
  unfold dispatch, clear_screen, console_print.
  frame_with ltac:(first [apply advances_get_message
                         | apply advances_process_message]).
Qed.

Lemma advances_loop_body (s : session) :
  advances (loop_body fill api retries delay s).
Proof.
  unfold loop_body.
  frame_with ltac:(first [apply advances_ensure_started
                         | apply advances_read_message
                         | apply advances_dispatch]).
Qed.

Lemma advances_flow_iteration (s : session) :
  advances (flow_iteration fill api retries delay s).
Proof.
  unfold flow_iteration. frame_with ltac:(apply advances_loop_body).
Qed.

Lemma advances_flow_loop (fuel : nat) :
  forall s, advances (flow_loop fill fuel api retries delay s).
Proof.
  induction fuel as [|fuel IH]; intros s; simpl.
  - apply advances_ret.
  - frame_with ltac:(first [apply advances_flow_iteration | apply IH]).
Qed.

End Advances.

(** ** The greeting comes first *)

Section Greeting.

Variable fill : nat -> string -> string.
Variable api : MetaAI.
Variables retries delay : Z.

Lemma start_new_conversation_calls (w : world) :
  calls (snd (start_new_conversation fill api w)) = calls w ++ [greeting].
Proof.
  unfold start_new_conversation, try_except.
  unfold bind at 1 2 3. simpl. unfold bind, prompt. simpl.
  change (mk_call load_instructions true) with greeting.
  destruct (api _ greeting) as [r|e].
  - rewrite handle_response_spec. simpl.
    destruct (rendering fill r (width w)); reflexivity.
  - destruct (isinstance e Exception); reflexivity.
Qed.

Lemma ensure_started_greets (s : session) (w : world) :
  conversation_started s = false ->
  calls (snd (ensure_started fill api s w)) = calls w ++ [greeting].
Proof.
  intros Hs. unfold ensure_started. rewrite Hs. simpl.
  unfold bind at 1 2. simpl. unfold bind.
  match goal with
  | |- context [start_new_conversation fill api ?w1] =>
      pose proof (start_new_conversation_calls w1) as H;
      destruct (start_new_conversation fill api w1) as [[[]|e] w2]
  end; simpl in *; exact H.
Qed.

Lemma later_calls (w w' : world) (pre : list api_call) :
  calls w = pre -> later w w' -> exists more, calls w' = pre ++ more.
Proof.
  intros <- (_ & H & _). exact H.
Qed.

Lemma first_call_bind {A B} (m : M A) (k : A -> M B) (g : api_call)
      (w : world) :
  calls (snd (m w)) = calls w ++ [g] ->
  (forall a, advances (k a)) ->
  exists more, calls (snd (bind m k w)) = calls w ++ g :: more.
Proof.
  intros Hm Hk. unfold bind. destruct (m w) as [[a|e] w1]; simpl in *.
  - destruct (later_calls _ _ _ Hm (Hk a w1)) as [more H].
    exists more. now rewrite H, <- app_assoc.
  - now exists [].
Qed.

Lemma first_call_try_except {A} (m : M A) (h : exn -> M A) (g : api_call)
      (w : world) :
  (exists more, calls (snd (m w)) = calls w ++ g :: more) ->
  (forall e, advances (h e)) ->
  exists more, calls (snd (try_except m h w)) = calls w ++ g :: more.
Proof.
  intros [more Hm] Hh. unfold try_except.
  destruct (m w) as [[a|e] w1]; simpl in *.
  - now exists more.
  - destruct (later_calls _ _ _ Hm (Hh e w1)) as [more' H].
    exists (more ++ more'). now rewrite H, <- app_assoc.
Qed.

(** The first call of a turn of a session that is not started is the
    greeting. *)
Lemma turn_greets_first (s : session) (w : world) :
  conversation_started s = false ->
  exists more,
    calls (snd (flow_iteration fill api retries delay s w)) =
    calls w ++ greeting :: more.
Proof.
  intros Hs. unfold flow_iteration.
  apply first_call_try_except; [|frame].
  unfold loop_body. apply first_call_bind.
  - now apply ensure_started_greets.
  - frame_with ltac:(first [apply advances_read_message
                           | apply advances_dispatch]).
Qed.

Lemma loop_greets_first (fuel : nat) (s : session) (w : world) :
  conversation_started s = false ->
  exists more,
    calls (snd (flow_loop fill (S fuel) api retries delay s w)) =
    calls w ++ greeting :: more.
Proof.
  intros Hs. simpl. unfold bind.
  destruct (turn_greets_first s w Hs) as [more Hm].
  destruct (flow_iteration fill api retries delay s w) as [[[s'|]|e] w1];
    simpl in *.
  - destruct (advances_flow_loop fill api retries delay fuel s' w1)
      as (_ & [more' Hm'] & _).
    exists (more ++ more'). rewrite Hm', Hm, <- app_assoc. reflexivity.
  - now exists more.
  - now exists more.
Qed.

(** X5.  Whatever the user types and the service does, the first call
    of a run of [flow_conversation] opens a new conversation: no message
    is sent before the greeting. *)
Theorem greeting_comes_first (fuel : nat) (w : world) :
  exists more,
    calls (snd (flow_conversation fill (S fuel) api retries delay w)) =
    calls w ++ greeting :: more.
Proof.
  apply loop_greets_first. reflexivity.
Qed.

Lemma ensure_started_sets (s s1 : session) (w w1 : world) :
  ensure_started fill api s w = (Val s1, w1) ->
  conversation_started s1 = true.
Proof.
  unfold ensure_started. destruct (conversation_started s) eqn:Hs; simpl.
  - unfold ret. intros H. inversion H. now subst.
  - unfold bind at 1 2. simpl. unfold bind.
    destruct (start_new_conversation fill api _) as [[[]|e] w2];
      unfold ret; intros H; now inversion H.
Qed.

(** X6.  Every session a turn hands on to the next turn is coherent:
    multiline mode is on only in a started conversation, so a block is
    never captured before the greeting. *)
Theorem turn_keeps_coherent (s s' : session) (w w' : world) :
  flow_iteration fill api retries delay s w = (Val (Continue s'), w') ->
  coherent s'.
Proof.
  unfold flow_iteration, try_except.
  destruct (loop_body fill api retries delay s w) as [[c|e] w2] eqn:Hb.
  - intros Hc. inversion Hc; subst. clear Hc.
    unfold loop_body, bind in Hb.
    destruct (ensure_started fill api s w) as [[s1|e] w3] eqn:H1;
      [|discriminate].
    apply ensure_started_sets in H1.
    destruct (read_message s1 w3) as [[[[m|] s2]|e] w4] eqn:Hr;
      try discriminate.
    + assert (Hm2 : multiline_mode s2 = false).
      { unfold read_message in Hr.
        destruct (multiline_mode s1) eqn:Hm1; simpl in Hr; unfold bind in Hr.
        - destruct (get_multiline_message multiline_prompt w3)
            as [[m'|e] w5]; [|discriminate].
          unfold ret in Hr. inversion Hr. reflexivity.
        - destruct (get_message "Your message: " w3) as [[m'|e] w5];
            [|discriminate].
          destruct (String.eqb (PyStr.lower m') "multiline").
          + unfold bind, console_print, effect, ret in Hr. discriminate.
          + unfold ret in Hr. inversion Hr. now subst. }
      apply dispatch_mode in Hb. intros Hm. congruence.
    + unfold ret in Hb. inversion Hb. subst. clear Hb.
      intros _. unfold read_message in Hr.
      destruct (multiline_mode s1) eqn:Hm1; simpl in Hr; unfold bind in Hr.
      * destruct (get_multiline_message multiline_prompt w3)
          as [[m'|e] w5]; discriminate.
      * destruct (get_message "Your message: " w3) as [[m'|e] w5];
          [|discriminate].
        destruct (String.eqb (PyStr.lower m') "multiline").
        -- unfold bind, console_print, effect, ret in Hr. inversion Hr.
           exact H1.
        -- discriminate.
  - destruct (isinstance e KeyboardInterrupt).
    + unfold bind, effect, ret. discriminate.
    + discriminate.
Qed.

End Greeting.

(** ** Python classes and strings *)

Lemma pyclass_eqb_eq (a : pyclass) :
  forall b, pyclass_eqb a b = true -> a = b.
Proof.
  induction a as [|pa IH na]; intros [|pb nb]; simpl; try discriminate.
  - reflexivity.
  - intros H. apply andb_prop in H as [Hn Hp].
    apply String.eqb_eq in Hn. apply IH in Hp. congruence.
Qed.

Lemma issubclass_step (base : pyclass) (name : string) (t : pyclass) :
  issubclass (Subclass base name) t =
  pyclass_eqb (Subclass base name) t || issubclass base t.
Proof.
  reflexivity.
Qed.

(** A class below [KeyboardInterrupt] is below no class that is unrelated
    to [KeyboardInterrupt]. *)
Lemma interrupt_unrelated (t c : pyclass) :
  issubclass KeyboardInterrupt t = false ->
  issubclass t KeyboardInterrupt = false ->
  issubclass c KeyboardInterrupt = true -> issubclass c t = false.
Proof.
  intros H1 H2. induction c as [|base IH name]; intros Hc.
  - discriminate Hc.
  - rewrite issubclass_step in Hc. apply orb_prop in Hc as [Hc | Hc].
    + apply pyclass_eqb_eq in Hc. now rewrite Hc.
    + rewrite issubclass_step, (IH Hc), orb_false_r.
      destruct (pyclass_eqb (Subclass base name) t) eqn:E; [|reflexivity].
      apply pyclass_eqb_eq in E. subst t. rewrite issubclass_step in H2.
      rewrite Hc, orb_true_r in H2. discriminate H2.
Qed.

Lemma interrupt_not_caught (e : exn) :
  isinstance e KeyboardInterrupt = true ->
  transient e = false /\ isinstance e Exception = false.
Proof.
  unfold transient, isinstance. intros H.
  rewrite (interrupt_unrelated ConnectionError _ eq_refl eq_refl H).
  rewrite (interrupt_unrelated TimeoutError _ eq_refl eq_refl H).
  rewrite (interrupt_unrelated Exception _ eq_refl eq_refl H). auto.
Qed.

Lemma rstrip_blank (s : string) : blank s = true -> PyStr.rstrip s = EmptyString.
Proof.
  induction s as [|c r IH]; simpl; [reflexivity|].
  intros H. apply andb_prop in H as [Hc Hr]. now rewrite (IH Hr), Hc.
Qed.

Lemma strip_blank (s : string) : blank s = true -> PyStr.strip s = EmptyString.
Proof.
  intros H. unfold PyStr.strip. now rewrite (rstrip_blank s H).
Qed.


(** ** Turns of a started session *)

Section Turns.

Variable fill : nat -> string -> string.
Variable api : MetaAI.
Variables retries delay : Z.



(** X2.  In single-line mode a line of white space only (the empty line
    included) gets the "Invalid input." notice: no call is made and the
    session is as before. *)
Theorem blank_line_is_invalid (s : session) (line : string)
        (rest : list tty) (w : world) :
  conversation_started s = true -> multiline_mode s = false ->
  stdin w = Line line :: rest ->
  blank line = true ->
  let w' := after_reading w rest [message_prompt; invalid_notice] in
  flow_iteration fill api retries delay s w = (Val (Continue s), w') /\
  calls w' = calls w.
Proof.
  intros Hs Hm H Hb w'. split; [|reflexivity].
  apply turn_val.
  rewrite (body_single fill api retries delay s line rest w Hs Hm H)
    by now rewrite (strip_blank line Hb).
  rewrite (strip_blank line Hb), dispatch_empty.
  unfold after_reading. now rewrite emit_emit.
Qed.


(** X4.  A line that reads "newchat" sends nothing and marks the session
    as not started; the first call the loop makes after it is the
    greeting of a new conversation. *)
Theorem newchat_greets_again (s : session) (line : string)
        (rest : list tty) (w : world) (fuel : nat) :
  conversation_started s = true -> multiline_mode s = false ->
  stdin w = Line line :: rest ->
  PyStr.lower (PyStr.strip line) = "newchat" ->
  let w1 := after_reading w rest [message_prompt] in
  flow_iteration fill api retries delay s w =
  (Val (Continue (set_started s false)), w1) /\
  calls w1 = calls w /\
  exists more,
    calls (snd (flow_loop fill (S (S fuel)) api retries delay s w)) =
    calls w ++ greeting :: more.
Proof.
  intros Hs Hm H Hn w1.
  assert (Ht : flow_iteration fill api retries delay s w =
               (Val (Continue (set_started s false)), w1)).
  { apply turn_val.
    rewrite (body_single fill api retries delay s line rest w Hs Hm H)
      by now rewrite Hn.
    now apply dispatch_newchat. }
  split; [exact Ht|]. split; [reflexivity|].
  change (flow_loop fill (S (S fuel)) api retries delay s w)
    with (bind (flow_iteration fill api retries delay s)
               (fun c => match c with
                         | Break => ret (Some tt)
                         | Continue s' =>
                             flow_loop fill (S fuel) api retries delay s'
                         end) w).
  rewrite (bind_val _ _ _ _ _ Ht).
  destruct (loop_greets_first fill api retries delay fuel
              (set_started s false) w1 eq_refl) as [more Hg].
  exists more. exact Hg.
Qed.

End Turns.

(** ** Interrupts and the end of input *)



(** Two results with the same value are equal when their worlds agree
    field by field. *)
Ltac same_world :=
  f_equal; apply world_ext; simpl; rewrite <- ?app_assoc; reflexivity.

Section Interrupts.

Variable fill : nat -> string -> string.
Variable api : MetaAI.
Variables retries delay : Z.

(** X7.  An interrupt typed at the message prompt, or at the
    confirmation prompt after "exit", ends the loop with the interrupt
    notice: no confirmation is needed, nothing is sent and no exception
    leaves the turn. *)
Theorem interrupt_at_prompt (s : session) (rest : list tty) (w : world) :
  conversation_started s = true -> multiline_mode s = false ->
  (stdin w = CtrlC :: rest ->
   flow_iteration fill api retries delay s w =
   (Val Break, after_reading w rest [message_prompt; interrupted])) /\
  (forall line,
      stdin w = Line line :: CtrlC :: rest ->
      PyStr.lower (PyStr.strip line) = "exit" ->
      flow_iteration fill api retries delay s w =
      (Val Break,
       after_reading w rest [message_prompt; exit_prompt; interrupted])).
Proof.
  intros Hs Hm. split.
  - intros H. unfold flow_iteration, try_except, loop_body.
    rewrite (bind_val _ _ _ _ _ (ensure_started_started fill api s w Hs)).
    unfold bind at 1. unfold read_message. rewrite Hm. simpl.
    unfold bind at 1. unfold get_message, bind, console_print, effect, input.
    simpl. rewrite H. simpl. unfold ret. same_world.
  - intros line H He. unfold flow_iteration, try_except.
    rewrite (body_single fill api retries delay s line _ w Hs Hm H)
      by now rewrite He.
    unfold dispatch. rewrite He. simpl. unfold bind at 1.
    unfold get_message, bind, console_print, effect, input. simpl.
    unfold ret. same_world.
Qed.




End Interrupts.

(** ** The retry loop at its edges *)



Section Edges.

Variable fill : nat -> string -> string.
Variable api : MetaAI.
Variable message : string.
Variables retries delay : Z.

Lemma attempts_loop_bound (attempts : list Z) :
  forall w,
  exists n,
    n <= List.length attempts /\
    calls (snd (attempts_loop fill api message retries delay attempts w)) =
    calls w ++ repeat (send message) n.
Proof.
  induction attempts as [|a attempts IH]; intros w; simpl.
  - exists 0. split; [lia|]. simpl. now rewrite app_nil_r.
  - destruct (attempt_once_frame fill api message retries delay a w)
      as (_ & H2 & _).
    unfold bind.
    destruct (attempt_once fill api message retries delay a w)
      as [[[o|]|e] w1]; simpl in *.
    + exists 1. split; [lia | exact H2].
    + destruct (IH w1) as (n & Hn & Hc).
      exists (S n). split; [lia|].
      rewrite Hc, H2, <- app_assoc. reflexivity.
    + exists 1. split; [lia | exact H2].
Qed.

(** X11.  Whatever the service does, [process_message] makes at most
    [retries] calls, all of them sending the same message outside a new
    conversation, and at least one when [retries] is at least 1; it
    reads no input. *)
Theorem process_message_bounded (w : world) :
  exists n,
    n <= Z.to_nat retries /\
    ((1 <= retries)%Z -> 1 <= n) /\
    calls (snd (process_message fill api message retries delay w)) =
    calls w ++ repeat (send message) n /\
    stdin (snd (process_message fill api message retries delay w)) = stdin w.
Proof.
  destruct (attempts_loop_bound (py_range 1 (retries + 1)) w)
    as (n & Hn & Hc).
  rewrite py_range_length in Hn.
  exists n. split; [lia|]. split; [|split].
  - intros Hr.
    destruct (process_message_first_call fill api message retries delay w Hr)
      as [more Hm].
    unfold process_message in Hm. rewrite Hc in Hm.
    apply app_inv_head in Hm. destruct n; [discriminate | lia].
  - exact Hc.
  - apply process_message_frame.
Qed.

(** X12.  With [retries] zero or negative no call is made at all: the
    loop body never runs and the [else] of the [for] logs the error. *)
Theorem no_attempt_without_retries (w : world) :
  (retries <= 0)%Z ->
  process_message fill api message retries delay w =
  (Val Exhausted, emit w [Logged ERROR (exhausted_text retries)]).
Proof.
  intros Hr. unfold process_message. rewrite py_range_nil by lia.
  reflexivity.
Qed.

(** X13.  With a negative [delay] a transient failure is not retried:
    [time.sleep] raises [ValueError] inside the handler, and that
    exception leaves [process_message] after the first call and the
    first warning. *)
Theorem negative_delay_escapes (e : exn) (w : world) :
  (delay < 0)%Z -> (1 <= retries)%Z ->
  api (calls w) (send message) = Raises e -> transient e = true ->
  process_message fill api message retries delay w =
  (Raise (mk_exn ValueError "sleep length must be non-negative"),
   emit (add_calls w [send message])
        [Logged WARNING (retry_text e 1 retries)]).
Proof.
  intros Hd Hr Ha Ht. unfold process_message.
  rewrite py_range_cons by lia. simpl attempts_loop. unfold bind at 1.
  unfold attempt_once, try_except, bind, prompt.
  change (mk_call message false) with (send message). rewrite Ha.
  unfold transient in Ht. rewrite Ht.
  unfold logging_warning, time_sleep, effect.
  replace (delay <? 0)%Z with true by (symmetry; apply Z.ltb_lt; lia).
  reflexivity.
Qed.




End Edges.

(** ** Wrapping keeps the line breaks *)

Section Wrapping.

Variable fill : nat -> string -> string.




End Wrapping.

(** ** The entry point *)

Section Main.

Variable fill : nat -> string -> string.

(** The world [main] has made by the time it builds the service. *)
Lemma main_unfold (fuel : nat) (made : res MetaAI) (w : world) :
  main fill fuel made w =
  try_finally
    (try_except
       (bind (new_MetaAI made)
             (fun ai => flow_conversation fill fuel ai 3 2))
       (fun e =>
          if isinstance e KeyboardInterrupt then
            bind (effect (PrintedPlain shutdown_notice))
                 (fun _ => ret (Some tt))
          else if isinstance e Exception then
            bind (logging_error (init_failed_text e))
                 (fun _ => ret (Some tt))
          else raise e))
    (console_print "Exiting the application. Goodbye!" "bold green")
    (emit w main_screen).
Proof.
  unfold main. unfold bind at 1 2 3. simpl.
  f_equal. rewrite !emit_emit. reflexivity.
Qed.

Lemma advances_main_body (fuel : nat) (made : res MetaAI) :
  advances
    (try_except
       (bind (new_MetaAI made)
             (fun ai => flow_conversation fill fuel ai 3 2))
       (fun e =>
          if isinstance e KeyboardInterrupt then
            bind (effect (PrintedPlain shutdown_notice))
                 (fun _ => ret (Some tt))
          else if isinstance e Exception then
            bind (logging_error (init_failed_text e))
                 (fun _ => ret (Some tt))
          else raise e)).
Proof.
  assert (Hn : advances (new_MetaAI made)).
  { intros w. apply later_refl. }
  unfold logging_error, flow_conversation.
  frame_with ltac:(first [exact Hn | apply advances_flow_loop]).
Qed.

(** X16.  Whatever happens in between (the constructor fails, the user
    leaves or interrupts, input runs out, an exception escapes), the
    farewell is the last thing [main] shows, after the opening screen
    and everything shown since; input is only consumed. *)
Theorem main_says_goodbye_last (fuel : nat) (made : res MetaAI) (w : world) :
  let w' := snd (main fill fuel made w) in
  (exists shown, out w' = out w ++ main_screen ++ shown ++ [goodbye]) /\
  (exists read, stdin w = read ++ stdin w').
Proof.
  rewrite main_unfold. unfold try_finally.
  pose proof (advances_main_body fuel made (emit w main_screen))
    as ([read Hr] & _ & _ & [shown Hs]).
  match goal with
  | |- context [try_except ?b ?h (emit w main_screen)] =>
      destruct (try_except b h (emit w main_screen)) as [r w1]
  end.
  simpl in *. split.
  - exists shown. rewrite Hs. now rewrite <- !app_assoc.
  - now exists read.
Qed.

(** X17.  [main] lets no [Exception] and no [KeyboardInterrupt] out:
    an exception that leaves [main] is an instance of neither. *)
Theorem main_catches_exceptions (fuel : nat) (made : res MetaAI)
        (w w' : world) (e : exn) :
  main fill fuel made w = (Raise e, w') ->
  isinstance e KeyboardInterrupt = false /\ isinstance e Exception = false.
Proof.
  rewrite main_unfold. unfold try_finally, try_except.
  destruct (bind (new_MetaAI made) _ (emit w main_screen)) as [[r|e0] w1].
  - discriminate.
  - destruct (isinstance e0 KeyboardInterrupt) eqn:Hk.
    + unfold bind, effect, ret. simpl. discriminate.
    + destruct (isinstance e0 Exception) eqn:He.
      * unfold bind, logging_error, effect, ret. simpl. discriminate.
      * unfold raise. simpl. intros H. inversion H. subst. auto.
Qed.

(** X18.  When the constructor of the service raises an [Exception],
    [main] logs it and says goodbye: no input is read and no call is
    made. *)
Theorem constructor_failure_is_logged (fuel : nat) (e : exn) (w : world) :
  isinstance e Exception = true ->
  main fill fuel (Raise e) w =
  (Val (Some tt),
   emit w (main_screen ++ [Logged ERROR (init_failed_text e); goodbye])).
Proof.
  intros He. rewrite main_unfold.
  assert (Hk : isinstance e KeyboardInterrupt = false).
  { destruct (isinstance e KeyboardInterrupt) eqn:Hk; [|reflexivity].
    destruct (interrupt_not_caught e Hk) as [_ Hn]. congruence. }
  unfold try_finally, try_except, bind, new_MetaAI. rewrite Hk, He.
  unfold logging_error, console_print, effect, ret. simpl.
  same_world.
Qed.

(** X19.  An [Exception] that leaves the conversation loop, such as the
    [EOFError] of an input that ended, is caught by [main] and logged
    under the text "Failed to initialize MetaAI", although the service
    was built; then [main] says goodbye and returns. *)
Theorem loop_failure_logged_as_init_failure (fuel : nat) (api : MetaAI)
        (e : exn) (w w1 : world) :
  flow_conversation fill fuel api 3 2 (emit w main_screen) = (Raise e, w1) ->
  isinstance e Exception = true ->
  main fill fuel (Val api) w =
  (Val (Some tt), emit w1 [Logged ERROR (init_failed_text e); goodbye]).
Proof.
  intros Hf He. rewrite main_unfold.
  assert (Hk : isinstance e KeyboardInterrupt = false).
  { destruct (isinstance e KeyboardInterrupt) eqn:Hk; [|reflexivity].
    destruct (interrupt_not_caught e Hk) as [_ Hn]. congruence. }
  unfold try_finally, try_except, bind, new_MetaAI. rewrite Hf, Hk, He.
  unfold logging_error, console_print, effect, ret. simpl.
  same_world.
Qed.

End Main.

(** ** More on the greeting and on the retry loop *)

Section More.

Variable fill : nat -> string -> string.
Variable api : MetaAI.

(** X21.  A greeting that goes wrong never stops the turn by an
    [Exception]: whether the service raises one or returns a reply the
    renderer cannot show, [ensure_started] returns.  It raises only
    what the greeting call itself raised, and only when that is no
    [Exception] (an interrupt, say). *)
Theorem greeting_failure_never_stops_turn (s : session) (e : exn)
        (w w' : world) :
  ensure_started fill api s w = (Raise e, w') ->
  conversation_started s = false /\
  api (calls w) greeting = Raises e /\
  isinstance e Exception = false.
Proof.
  unfold ensure_started. destruct (conversation_started s); simpl;
    [discriminate|].
  unfold bind at 1 2. simpl.
  unfold bind at 1.
  unfold start_new_conversation, try_except.
  unfold bind at 1 2 3. simpl. unfold bind at 1. unfold prompt. simpl.
  change (mk_call load_instructions true) with greeting.
  destruct (api (calls w) greeting) as [r|e0].
  - rewrite handle_response_spec. simpl.
    destruct (rendering fill r (width w)); simpl; discriminate.
  - destruct (isinstance e0 Exception) eqn:He; simpl.
    + discriminate.
    + unfold raise. intros H. inversion H. subst. auto.
Qed.

Variable message : string.
Variables retries delay : Z.


(** X23.  When every call fails with a transient failure,
    [process_message] makes exactly [retries] calls (none when
    [retries] is negative), each followed by its warning and its sleep,
    and ends in the [else] of the [for] with one error. *)
Theorem always_transient_exhausts (w : world) :
  (0 <= delay)%Z ->
  (forall h k, exists e, api h k = Raises e /\ transient e = true) ->
  exists errs,
    List.length errs = Z.to_nat retries /\
    process_message fill api message retries delay w =
    (Val Exhausted,
     emit (add_calls w (repeat (send message) (Z.to_nat retries)))
          (retry_events retries delay errs 1 ++
           [Logged ERROR (exhausted_text retries)])).
Proof.
  intros Hd Hall.
  destruct (always_failing_run api message (Z.to_nat retries) Hall w)
    as (errs & Hlen & Hf).
  exists errs. split; [exact Hlen|].
  rewrite <- Hlen.
  now apply process_message_exhausts.
Qed.

(** X24.  A failure that is an [Exception] but no connectivity failure
    stops the loop at the attempt it occurs at, also after transient
    failures: one call per attempt so far, one error logged, no sleep
    after it and no further attempt. *)
Theorem fatal_after_failures (errs : list exn) (e : exn) (w : world) :
  (0 <= delay)%Z ->
  (Z.of_nat (List.length errs) < retries)%Z ->
  fails_with api message errs w ->
  api (calls w ++ repeat (send message) (List.length errs)) (send message) =
  Raises e ->
  fatal e = true ->
  process_message fill api message retries delay w =
  (Val (Aborted e),
   emit (add_calls w (repeat (send message) (S (List.length errs))))
        (retry_events retries delay errs 1 ++
         [Logged ERROR (unexpected_text e)])).
Proof.
  intros Hd Hlen Hf Ha He. unfold process_message.
  rewrite (attempts_loop_failures fill api message retries delay errs 1
             (retries + 1) w Hd); [| lia | assumption].
  rewrite py_range_cons by lia.
  simpl attempts_loop. unfold bind at 1.
  rewrite (attempt_fatal fill api message retries delay _ e);
    [| exact Ha | exact He].
  unfold ret. f_equal. apply world_ext; simpl; auto using app_assoc.
  rewrite <- app_assoc. f_equal. symmetry. apply repeat_cons.
Qed.

End More.

(** ** The further properties at concrete inputs *)


Lemma blank_line_is_invalid_witness :
  blank "   " = true /\
  flow_iteration no_wrap echo 3 2 single_line (console [Line "   "; Line "hi"]) =
  (Val (Continue single_line),
   after_reading (console []) [Line "hi"] [message_prompt; invalid_notice]).
Proof.
  split; [reflexivity|].
  exact (proj1 (blank_line_is_invalid no_wrap echo 3 2 single_line "   "
                  [Line "hi"] (console [Line "   "; Line "hi"])
                  eq_refl eq_refl eq_refl eq_refl)).
Defined.


Lemma newchat_greets_again_witness :
  PyStr.lower (PyStr.strip "NewChat") = "newchat" /\
  exists more,
    calls (snd (flow_loop no_wrap 2 echo 3 2 single_line
                  (console [Line "NewChat"; Line "hi"]))) =
    calls (console [Line "NewChat"; Line "hi"]) ++ greeting :: more.
Proof.
  split; [reflexivity|].
  exact (proj2 (proj2 (newchat_greets_again no_wrap echo 3 2 single_line
                         "NewChat" [Line "hi"]
                         (console [Line "NewChat"; Line "hi"]) 0
                         eq_refl eq_refl eq_refl eq_refl))).
Defined.

Lemma turn_keeps_coherent_witness :
  flow_iteration no_wrap echo 3 2 (mk_session false false)
                 (console [Line "multiline"]) =
  (Val (Continue multiline),
   snd (flow_iteration no_wrap echo 3 2 (mk_session false false)
                       (console [Line "multiline"]))) /\
  coherent multiline.
Proof.
  assert (H : flow_iteration no_wrap echo 3 2 (mk_session false false)
                (console [Line "multiline"]) =
              (Val (Continue multiline),
               snd (flow_iteration no_wrap echo 3 2 (mk_session false false)
                      (console [Line "multiline"])))) by reflexivity.
  split; [exact H|].
  exact (turn_keeps_coherent no_wrap echo 3 2 _ _ _ _ H).
Defined.

Lemma interrupt_at_prompt_witness :
  flow_iteration no_wrap echo 3 2 single_line
                 (console [Line "exit"; CtrlC; Line "no"]) =
  (Val Break,
   after_reading (console []) [Line "no"]
     [message_prompt; exit_prompt; interrupted]).
Proof.
  exact (proj2 (interrupt_at_prompt no_wrap echo 3 2 single_line [Line "no"]
                  (console [Line "exit"; CtrlC; Line "no"]) eq_refl eq_refl)
               "exit" eq_refl eq_refl).
Defined.




Lemma no_attempt_without_retries_witness :
  (0 <= 0)%Z /\
  process_message no_wrap echo "hi" 0 2 (console []) =
  (Val Exhausted, emit (console []) [Logged ERROR (exhausted_text 0)]).
Proof.
  assert (Hr : (0 <= 0)%Z) by lia.
  split; [exact Hr|].
  exact (no_attempt_without_retries no_wrap echo "hi" 0 2 (console []) Hr).
Defined.

Lemma negative_delay_escapes_witness :
  (-1 < 0)%Z /\ (1 <= 3)%Z /\
  process_message no_wrap unreachable "hi" 3 (-1) (console []) =
  (Raise (mk_exn ValueError "sleep length must be non-negative"),
   emit (add_calls (console []) [send "hi"])
        [Logged WARNING
           (retry_text (mk_exn ConnectionError "connection refused") 1 3)]).
Proof.
  assert (Hd : (-1 < 0)%Z) by lia.
  assert (Hr : (1 <= 3)%Z) by lia.
  split; [exact Hd|]. split; [exact Hr|].
  exact (negative_delay_escapes no_wrap unreachable "hi" 3 (-1)
           (mk_exn ConnectionError "connection refused") (console [])
           Hd Hr eq_refl eq_refl).
Defined.



Lemma main_catches_exceptions_witness :
  fst (main no_wrap 1 (Val quitting) (console [Line "hi"])) =
  Raise (mk_exn (Subclass BaseException "SystemExit") "bye") /\
  isinstance (mk_exn (Subclass BaseException "SystemExit") "bye")
             KeyboardInterrupt = false /\
  isinstance (mk_exn (Subclass BaseException "SystemExit") "bye")
             Exception = false.
Proof.
  split; [reflexivity|].
  exact (main_catches_exceptions no_wrap 1 (Val quitting)
           (console [Line "hi"])
           (snd (main no_wrap 1 (Val quitting) (console [Line "hi"])))
           (mk_exn (Subclass BaseException "SystemExit") "bye") eq_refl).
Defined.

Lemma constructor_failure_is_logged_witness :
  isinstance (mk_exn ConnectionError "no network") Exception = true /\
  main no_wrap 5 (Raise (mk_exn ConnectionError "no network"))
       (console [Line "hi"]) =
  (Val (Some tt),
   emit (console [Line "hi"])
        (main_screen ++
         [Logged ERROR (init_failed_text (mk_exn ConnectionError "no network"));
          goodbye])).
Proof.
  split; [reflexivity|].
  exact (constructor_failure_is_logged no_wrap 5
           (mk_exn ConnectionError "no network") (console [Line "hi"])
           eq_refl).
Defined.

Lemma loop_failure_logged_as_init_failure_witness :
  fst (flow_conversation no_wrap 2 echo 3 2 (emit (console []) main_screen)) =
  Raise (mk_exn EOFError "EOF when reading a line") /\
  main no_wrap 2 (Val echo) (console []) =
  (Val (Some tt),
   emit (snd (flow_conversation no_wrap 2 echo 3 2
                (emit (console []) main_screen)))
        [Logged ERROR
           (init_failed_text (mk_exn EOFError "EOF when reading a line"));
         goodbye]).
Proof.
  split; [reflexivity|].
  exact (loop_failure_logged_as_init_failure no_wrap 2 echo
           (mk_exn EOFError "EOF when reading a line") (console [])
           (snd (flow_conversation no_wrap 2 echo 3 2
                   (emit (console []) main_screen)))
           eq_refl eq_refl).
Defined.

Lemma flow_loop_total_witness :
  List.length (stdin (console [Line "hi"; Line "exit"])) < 3 /\
  fst (flow_loop no_wrap 3 echo 3 2 single_line
                 (console [Line "hi"; Line "exit"])) <> Val None.
Proof.
  assert (H : List.length (stdin (console [Line "hi"; Line "exit"])) < 3)
    by (simpl; lia).
  split; [exact H|].
  exact (flow_loop_total no_wrap echo 3 2 3 single_line
           (console [Line "hi"; Line "exit"]) H).
Defined.

Lemma greeting_failure_never_stops_turn_witness :
  fst (ensure_started no_wrap interrupting (mk_session false false)
                      (console [])) =
  Raise (mk_exn KeyboardInterrupt EmptyString) /\
  isinstance (mk_exn KeyboardInterrupt EmptyString) Exception = false.
Proof.
  split; [reflexivity|].
  exact (proj2 (proj2 (greeting_failure_never_stops_turn no_wrap interrupting
                         (mk_session false false)
                         (mk_exn KeyboardInterrupt EmptyString) (console [])
                         (snd (ensure_started no_wrap interrupting
                                 (mk_session false false) (console [])))
                         eq_refl))).
Defined.


Lemma always_transient_exhausts_witness :
  (0 <= 2)%Z /\
  exists errs,
    List.length errs = Z.to_nat 5 /\
    process_message no_wrap unreachable "hi" 5 2 (console []) =
    (Val Exhausted,
     emit (add_calls (console []) (repeat (send "hi") (Z.to_nat 5)))
          (retry_events 5 2 errs 1 ++ [Logged ERROR (exhausted_text 5)])).
Proof.
  assert (H1 : (0 <= 2)%Z) by lia.
  assert (H2 : forall h k,
             exists e, unreachable h k = Raises e /\ transient e = true).
  { intros h k. eexists. split; reflexivity. }
  split; [exact H1|].
  exact (always_transient_exhausts no_wrap unreachable "hi" 5 2 (console [])
           H1 H2).
Defined.

Lemma fatal_after_failures_witness :
  (0 <= 2)%Z /\
  fails_with failing_late "hi" [mk_exn TimeoutError "timed out"] (console []) /\
  fatal (mk_exn ValueError "bad request") = true /\
  process_message no_wrap failing_late "hi" 3 2 (console []) =
  (Val (Aborted (mk_exn ValueError "bad request")),
   emit (add_calls (console []) [send "hi"; send "hi"])
        [Logged WARNING (retry_text (mk_exn TimeoutError "timed out") 1 3);
         Slept 2;
         Logged ERROR (unexpected_text (mk_exn ValueError "bad request"))]).
Proof.
  assert (H1 : (0 <= 2)%Z) by lia.
  assert (H2 : (Z.of_nat (List.length [mk_exn TimeoutError "timed out"]) < 3)%Z)
    by (simpl; lia).
  assert (H3 : fails_with failing_late "hi" [mk_exn TimeoutError "timed out"]
                 (console [])).
  { intros [|[|i]] e H; try discriminate H.
    injection H as <-. split; reflexivity. }
  split; [exact H1|]. split; [exact H3|]. split; [reflexivity|].
  exact (fatal_after_failures no_wrap failing_late "hi" 3 2
           [mk_exn TimeoutError "timed out"]
           (mk_exn ValueError "bad request") (console [])
           H1 H2 H3 eq_refl eq_refl).
Defined.
